(** * slack-mcp-remote: the request dispatch layer of [src/worker.ts]

    A shallow embedding of the Cloudflare Worker's [fetch] handler, of the
    [SlackClient] operations it calls, and of the JavaScript primitives
    they rest on (property access, truthiness, [JSON.stringify], string
    conversion), followed by the properties of the dispatch layer.

    Conventions of the embedding.
    - A JavaScript value is a [value]: the JSON values plus [VUndef].
      Numbers are integer valued ([Z]) and printed in decimal, which is
      what JavaScript does for integers of magnitude below 2^53.
    - A string is the byte sequence of its UTF-8 encoding.
    - An object is the list of its own properties in enumeration order;
      a decoded object has pairwise distinct keys.
    - A thrown [Error] is its message text ([exn]). The texts of the
      engine's own errors are those of V8.
    - The Slack Web API is an oracle threaded through a store
      ([slack_api]); every call issued is appended to a log ([sent]). *)

From Stdlib Require Import ZArith String Ascii List Bool Lia DecimalString.
Import ListNotations.
Local Open Scope string_scope.
Local Open Scope Z_scope.

Set Implicit Arguments.
Set Warnings "-register-all".

(** ** JavaScript values *)

Inductive value : Type :=
| VUndef
| VNull
| VBool (b : bool)
| VNum (z : Z)
| VStr (s : string)
| VArr (elems : list value)
| VObj (props : list (string * value)).

(** A thrown [Error], identified with its [message]. *)
Definition exn := string.

(** The outcome of evaluating an expression: it throws or it has a value. *)
Inductive result (A : Type) : Type :=
| Throw (e : exn)
| Ok (a : A).
Arguments Throw {A} e.
Arguments Ok {A} a.

Definition rbind {A B} (r : result A) (k : A -> result B) : result B :=
  match r with
  | Throw e => Throw e
  | Ok a => k a
  end.

Module JS.

(** [!!v] *)
Definition truthy (v : value) : bool :=
  match v with
  | VUndef | VNull => false
  | VBool b => b
  | VNum z => negb (z =? 0)
  | VStr s => negb (s =? EmptyString)%string
  | VArr _ | VObj _ => true
  end.

(** [a || b] *)
Definition or_else (a b : value) : value := if truthy a then a else b.

(** [v === 'lit'] for a string literal. *)
Definition is_str (v : value) (lit : string) : bool :=
  match v with
  | VStr s => (s =? lit)%string
  | _ => false
  end.

Fixpoint lookup (k : string) (props : list (string * value)) : option value :=
  match props with
  | [] => None
  | (k', v) :: rest => if (k =? k')%string then Some v else lookup k rest
  end.

Definition has_own (k : string) (props : list (string * value)) : bool :=
  match lookup k props with Some _ => true | None => false end.

(** [v.k] where [v] is known not to be [null] or [undefined], for a key
    [k] that no prototype defines: an object answers with its own
    property, everything else with [undefined]. *)
Definition get (v : value) (k : string) : value :=
  match v with
  | VObj props => match lookup k props with Some x => x | None => VUndef end
  | _ => VUndef
  end.

Definition null_read (k : string) : exn :=
  "Cannot read properties of null (reading '" ++ k ++ "')".
Definition undefined_read (k : string) : exn :=
  "Cannot read properties of undefined (reading '" ++ k ++ "')".

(** [v.k] in general: reading a property of [null] or [undefined] throws
    a TypeError. *)
Definition member (v : value) (k : string) : result value :=
  match v with
  | VNull => Throw (null_read k)
  | VUndef => Throw (undefined_read k)
  | _ => Ok (get v k)
  end.

(** [v?.k] *)
Definition opt_member (v : value) (k : string) : value :=
  match v with
  | VNull | VUndef => VUndef
  | _ => get v k
  end.

(** *** Strings of the engine *)

Definition dquote : ascii := "034"%char.
Definition backslash : ascii := "092"%char.

Definition str1 (c : ascii) : string := String c EmptyString.

Definition hex_digit (n : N) : ascii :=
  ascii_of_N (if (n <? 10)%N then 48 + n else 87 + n)%N.

(** The escape of one code unit inside a JSON string literal
    (QuoteJSONString). *)
Definition json_escape (c : ascii) : string :=
  let n := N_of_ascii c in
  if (n =? 8)%N then String backslash "b"
  else if (n =? 9)%N then String backslash "t"
  else if (n =? 10)%N then String backslash "n"
  else if (n =? 12)%N then String backslash "f"
  else if (n =? 13)%N then String backslash "r"
  else if (n =? 34)%N then String backslash (str1 dquote)
  else if (n =? 92)%N then String backslash (str1 backslash)
  else if (n <? 32)%N then
    String backslash ("u00" ++ String (hex_digit (n / 16)) (str1 (hex_digit (n mod 16))))
  else str1 c.

Fixpoint json_escape_all (s : string) : string :=
  match s with
  | EmptyString => EmptyString
  | String c rest => json_escape c ++ json_escape_all rest
  end.

Definition json_quote (s : string) : string :=
  String dquote (json_escape_all s ++ str1 dquote).

(** Number::toString for an integer. *)
Definition Z_toString (z : Z) : string := NilZero.string_of_int (Z.to_int z).

(** [JSON.stringify(v)]: [None] stands for the result [undefined].
    Properties whose value is [undefined] are left out and an
    [undefined] array element is written [null]. *)
Fixpoint JSON_stringify (v : value) : option string :=
  match v with
  | VUndef => None
  | VNull => Some "null"
  | VBool true => Some "true"
  | VBool false => Some "false"
  | VNum z => Some (Z_toString z)
  | VStr s => Some (json_quote s)
  | VArr elems =>
      let items :=
        (fix go (l : list value) : list string :=
           match l with
           | [] => []
           | x :: rest =>
               match JSON_stringify x with
               | Some s => s
               | None => "null"
               end :: go rest
           end) elems in
      Some ("[" ++ String.concat "," items ++ "]")
  | VObj props =>
      let members :=
        (fix go (l : list (string * value)) : list string :=
           match l with
           | [] => []
           | (k, x) :: rest =>
               match JSON_stringify x with
               | Some s => (json_quote k ++ ":" ++ s) :: go rest
               | None => go rest
               end
           end) props in
      Some ("{" ++ String.concat "," members ++ "}")
  end.

(** [JSON.stringify(v)] as a JavaScript value. *)
Definition stringify (v : value) : value :=
  match JSON_stringify v with
  | Some s => VStr s
  | None => VUndef
  end.

Definition not_primitive : exn := "Cannot convert object to primitive value".

(** ToString, as applied by template literals and by the conversion of
    an argument to a USVString. An array is joined with commas, [null]
    and [undefined] elements being empty; a plain object is
    [[object Object]] unless an own property hides [toString], in which
    case no conversion exists and a TypeError is thrown. *)
Fixpoint ToString (v : value) : result string :=
  match v with
  | VUndef => Ok "undefined"
  | VNull => Ok "null"
  | VBool true => Ok "true"
  | VBool false => Ok "false"
  | VNum z => Ok (Z_toString z)
  | VStr s => Ok s
  | VArr elems =>
      rbind
        ((fix go (l : list value) : result (list string) :=
            match l with
            | [] => Ok []
            | x :: rest =>
                rbind (match x with
                       | VUndef | VNull => Ok EmptyString
                       | _ => ToString x
                       end)
                      (fun s => rbind (go rest) (fun ss => Ok (s :: ss)))
            end) elems)
        (fun items => Ok (String.concat "," items))
  | VObj props =>
      if has_own "toString" props then Throw not_primitive
      else Ok "[object Object]"
  end.

(** *** Numbers *)

Inductive number : Type :=
| Num (z : Z)
| NaN.

Definition Math_min (a b : number) : number :=
  match a, b with
  | Num x, Num y => Num (Z.min x y)
  | _, _ => NaN
  end.

Definition number_toString (n : number) : string :=
  match n with
  | Num z => Z_toString z
  | NaN => "NaN"
  end.

End JS.
Import JS.

(** ** Text helpers of the standard library of JavaScript *)

Module Text.

Fixpoint rev_string (s acc : string) : string :=
  match s with
  | EmptyString => acc
  | String c rest => rev_string rest (String c acc)
  end.

(** [s.split(",")] *)
Fixpoint split_comma (s : string) : list string :=
  match s with
  | EmptyString => [EmptyString]
  | String c rest =>
      if Ascii.eqb c ","%char then EmptyString :: split_comma rest
      else match split_comma rest with
           | h :: t => String c h :: t
           | [] => [str1 c]
           end
  end.

Definition byte_is (c : ascii) (n : N) : bool := (N_of_ascii c =? n)%N.

(** White space and line terminators of one byte: TAB, LF, VT, FF, CR,
    SP. *)
Definition ws1 (c : ascii) : bool :=
  let n := N_of_ascii c in ((9 <=? n) && (n <=? 13) || (n =? 32))%N.

(** U+00A0, encoded C2 A0. *)
Definition ws2 (a b : ascii) : bool := byte_is a 194 && byte_is b 160.

(** U+1680, U+2000..U+200A, U+2028, U+2029, U+202F, U+205F, U+3000 and
    U+FEFF in their three-byte encodings. *)
Definition ws3 (a b c : ascii) : bool :=
  let n := N_of_ascii c in
  (byte_is a 225 && byte_is b 154 && byte_is c 128)
  || (byte_is a 226 && byte_is b 128
      && ((128 <=? n) && (n <=? 138) || (n =? 168) || (n =? 169) || (n =? 175))%N)
  || (byte_is a 226 && byte_is b 129 && byte_is c 159)
  || (byte_is a 227 && byte_is b 128 && byte_is c 128)
  || (byte_is a 239 && byte_is b 187 && byte_is c 191).

(** Strips leading white space; with [back] the string is read from its
    end, so the bytes of an encoding come in reverse. *)
Fixpoint strip (back : bool) (s : string) : string :=
  match s with
  | EmptyString => EmptyString
  | String a r1 =>
      if ws1 a then strip back r1
      else match r1 with
           | EmptyString => s
           | String b r2 =>
               if (if back then ws2 b a else ws2 a b) then strip back r2
               else match r2 with
                    | EmptyString => s
                    | String c r3 =>
                        if (if back then ws3 c b a else ws3 a b c)
                        then strip back r3
                        else s
                    end
           end
  end.

(** [s.trim()] *)
Definition trim (s : string) : string :=
  rev_string (strip true (rev_string (strip false s) EmptyString)) EmptyString.

(** [s.includes(t)] *)
Fixpoint includes (s t : string) : bool :=
  prefix t s ||
  match s with
  | EmptyString => false
  | String _ rest => includes rest t
  end.

End Text.

(** ** The hosting runtime *)

Definition Headers := list (string * string).

(** A call of the global [fetch] to the Slack Web API. The query of a
    GET is the list of entries of its [URLSearchParams], before
    percent-encoding. *)
Inductive api_call : Type :=
| HttpGet (url : string) (query : list (string * string)) (headers : Headers)
| HttpPost (url : string) (headers : Headers) (body : option string).

(** The incoming [Request]: its transport method and the outcome of
    [JSON.parse(await request.text())], [None] when the text is not
    JSON (the empty text of a bodyless request included). *)
Record Request : Type := {
  method : string;
  decoded : option value
}.

Record Response : Type := {
  status : Z;
  headers : Headers;
  body : option string
}.

(** The bindings the runtime passes as [env]. *)
Definition Env := list (string * string).

Fixpoint assoc (k : string) (l : list (string * string)) : option string :=
  match l with
  | [] => None
  | (k', v) :: rest => if (k =? k')%string then Some v else assoc k rest
  end.

Definition env_lookup (k : string) (env : Env) : option string := assoc k env.

(** [env.k] *)
Definition env_get (env : Env) (k : string) : value :=
  match env_lookup k env with
  | Some s => VStr s
  | None => VUndef
  end.

(** [Object.keys(env)] *)
Definition env_keys (env : Env) : value := VArr (map (fun kv => VStr (fst kv)) env).

(** The Node global [process], which a Worker has only under the
    Node compatibility mode. *)
Inductive process_global : Type :=
| NoProcess
| Process (env : Env).

(** ** Tool definitions *)

Module Tools.

Definition string_param (description : string) : value :=
  VObj [("type", VStr "string"); ("description", VStr description)].

Definition number_param (description : string) (default : Z) : value :=
  VObj [("type", VStr "number"); ("description", VStr description);
        ("default", VNum default)].

(** A [Tool] literal; [required] is [None] where the literal has no
    such property. *)
Definition tool (name description : string) (properties : list (string * value))
    (required : option (list string)) : value :=
  VObj [("name", VStr name);
        ("description", VStr description);
        ("inputSchema",
         VObj ([("type", VStr "object"); ("properties", VObj properties)]
               ++ match required with
                  | Some r => [("required", VArr (map VStr r))]
                  | None => []
                  end))].

Definition listChannelsTool : value :=
  tool "slack_list_channels"
    "List public or pre-defined channels in the workspace with pagination"
    [("limit", number_param "Maximum number of channels to return (default 100, max 200)" 100);
     ("cursor", string_param "Pagination cursor for next page of results")]
    None.

Definition postMessageTool : value :=
  tool "slack_post_message" "Post a new message to a Slack channel"
    [("channel_id", string_param "The ID of the channel to post to");
     ("text", string_param "The message text to post")]
    (Some ["channel_id"; "text"]).

Definition replyToThreadTool : value :=
  tool "slack_reply_to_thread" "Reply to a specific message thread in Slack"
    [("channel_id", string_param "The ID of the channel containing the thread");
     ("thread_ts", string_param "The timestamp of the parent message in the format '1234567890.123456'. Timestamps in the format without the period can be converted by adding the period such that 6 numbers come after it.");
     ("text", string_param "The reply text")]
    (Some ["channel_id"; "thread_ts"; "text"]).

Definition addReactionTool : value :=
  tool "slack_add_reaction" "Add a reaction emoji to a message"
    [("channel_id", string_param "The ID of the channel containing the message");
     ("timestamp", string_param "The timestamp of the message to react to");
     ("reaction", string_param "The name of the emoji reaction (without ::)")]
    (Some ["channel_id"; "timestamp"; "reaction"]).

Definition getChannelHistoryTool : value :=
  tool "slack_get_channel_history" "Get recent messages from a channel"
    [("channel_id", string_param "The ID of the channel");
     ("limit", number_param "Number of messages to retrieve (default 10)" 10)]
    (Some ["channel_id"]).

Definition getThreadRepliesTool : value :=
  tool "slack_get_thread_replies" "Get all replies in a message thread"
    [("channel_id", string_param "The ID of the channel containing the thread");
     ("thread_ts", string_param "The timestamp of the parent message")]
    (Some ["channel_id"; "thread_ts"]).

Definition getUsersTool : value :=
  tool "slack_get_users"
    "Get a list of all users in the workspace with their basic profile information"
    [("cursor", string_param "Pagination cursor for next page of results");
     ("limit", number_param "Maximum number of users to return (default 100, max 200)" 100)]
    None.

Definition getUserProfileTool : value :=
  tool "slack_get_user_profile" "Get detailed profile information for a specific user"
    [("user_id", string_param "The ID of the user")]
    (Some ["user_id"]).

(** The list both tool listings return, in declaration order. *)
Definition tools : list value :=
  [listChannelsTool; postMessageTool; replyToThreadTool; addReactionTool;
   getChannelHistoryTool; getThreadRepliesTool; getUsersTool; getUserProfileTool].

(** [tool.name] and the strings of [tool.inputSchema.required]. *)
Definition name_of (t : value) : value := get t "name".

Definition required_of (t : value) : list string :=
  match get (get t "inputSchema") "required" with
  | VArr names =>
      flat_map (fun v => match v with VStr s => [s] | _ => [] end) names
  | _ => []
  end.

End Tools.

(** ** The worker *)

Section Worker.

(** The Slack workspace behind the Web API, and one round trip to it:
    [await fetch(...)] followed by [await response.json()], which
    either throws or yields the decoded answer. *)
Variable World : Type.
Variable slack_api : World -> api_call -> result value * World.

(** StringToNumber of ECMAScript, for the conversion of a string
    argument to a number. *)
Variable StringToNumber : string -> number.

(** The global [process] of the hosting runtime. *)
Variable process : process_global.

Record state : Type := {
  world : World;
  sent : list api_call
}.

(** Computations that call the API and may throw. The store survives a
    throw: calls made before it stay made. *)
Definition M (A : Type) : Type := state -> result A * state.

Definition ret {A} (a : A) : M A := fun st => (Ok a, st).

Definition throw {A} (e : exn) : M A := fun st => (Throw e, st).

Definition bind {A B} (m : M A) (k : A -> M B) : M B :=
  fun st =>
    match m st with
    | (Throw e, st') => (Throw e, st')
    | (Ok a, st') => k a st'
    end.

Definition lift {A} (r : result A) : M A := fun st => (r, st).

(** [try { m } catch (error) { h error.message }] *)
Definition try_catch {A} (m : M A) (h : exn -> M A) : M A :=
  fun st =>
    match m st with
    | (Throw e, st') => h e st'
    | (Ok a, st') => (Ok a, st')
    end.

Definition fetch_json (c : api_call) : M value :=
  fun st =>
    let (r, w) := slack_api (world st) c in
    (r, {| world := w; sent := (sent st ++ [c])%list |}).

Notation "x <- m ;; k" := (bind m (fun x => k))
  (at level 61, m at next level, right associativity).

(** ToNumber. An array or object goes through its string conversion. *)
Definition ToNumber (v : value) : result number :=
  match v with
  | VUndef => Ok NaN
  | VNull => Ok (Num 0)
  | VBool true => Ok (Num 1)
  | VBool false => Ok (Num 0)
  | VNum z => Ok (Num z)
  | VStr s => Ok (StringToNumber s)
  | VArr _ | VObj _ => rbind (ToString v) (fun s => Ok (StringToNumber s))
  end.

(** [v.toString()], [name] being the text of the expression [v]. *)
Definition call_toString (name : string) (v : value) : result string :=
  match v with
  | VUndef => Throw (undefined_read "toString")
  | VNull => Throw (null_read "toString")
  | VObj props =>
      if has_own "toString" props then Throw (name ++ ".toString is not a function")
      else Ok "[object Object]"
  | _ => ToString v
  end.

(** A parameter with a default value. *)
Definition default_to (dflt : value) (v : value) : value :=
  match v with
  | VUndef => dflt
  | _ => v
  end.

(** [process.env.k] *)
Definition process_env (k : string) : result value :=
  match process with
  | NoProcess => Throw "process is not defined"
  | Process env => Ok (env_get env k)
  end.

(** *** SlackClient *)

Record SlackClient : Type := {
  botHeaders : Headers
}.

(** The text of a string value. *)
Definition text_of (v : value) : string :=
  match v with
  | VStr s => s
  | _ => EmptyString
  end.

(** [new SlackClient(botToken)], for the string [fetch] has checked to
    be there. *)
Definition new_SlackClient (botToken : value) : SlackClient :=
  {| botHeaders := [("Authorization", "Bearer " ++ text_of botToken);
                    ("Content-Type", "application/json")] |}.

Section Operations.

Variable this : SlackClient.

(** The loop of [getChannels] over the pre-defined channel ids. *)
Fixpoint lookup_channels (ids : list string) (channels : list value) : M (list value) :=
  match ids with
  | [] => ret channels
  | channelId :: rest =>
      data <- fetch_json (HttpGet "https://slack.com/api/conversations.info"
                            [("channel", channelId)] (botHeaders this)) ;;
      ok <- lift (member data "ok") ;;
      let channel := get data "channel" in
      if truthy ok && truthy channel && negb (truthy (get channel "is_archived"))
      then lookup_channels rest (channels ++ [channel])%list
      else lookup_channels rest channels
  end.

(** [getChannels(limit = 100, cursor?, env?)]; [env] is [None] when the
    caller passes no third argument. *)
Definition getChannels (limit cursor : value) (env : option Env) : M value :=
  let limit := default_to (VNum 100) limit in
  let predefinedChannelIds :=
    match env with Some e => env_get e "SLACK_CHANNEL_IDS" | None => VUndef end in
  if negb (truthy predefinedChannelIds) then
    n <- lift (ToNumber limit) ;;
    team <- lift (ToString
                    (or_else (match env with
                              | Some e => env_get e "SLACK_TEAM_ID"
                              | None => VUndef
                              end) (VStr EmptyString))) ;;
    let params := [("types", "public_channel");
                   ("exclude_archived", "true");
                   ("limit", number_toString (Math_min n (Num 200)));
                   ("team_id", team)] in
    params <- (if truthy cursor
               then c <- lift (ToString cursor) ;; ret (params ++ [("cursor", c)])%list
               else ret params) ;;
    fetch_json (HttpGet "https://slack.com/api/conversations.list" params
                  (botHeaders this))
  else
    ids <- lift (match predefinedChannelIds with
                 | VStr s => Ok (map Text.trim (Text.split_comma s))
                 | _ => Throw "predefinedChannelIds.split is not a function"
                 end) ;;
    channels <- lookup_channels ids [] ;;
    ret (VObj [("ok", VBool true);
               ("channels", VArr channels);
               ("response_metadata", VObj [("next_cursor", VStr EmptyString)])]).

Definition postMessage (channel_id text : value) : M value :=
  fetch_json (HttpPost "https://slack.com/api/chat.postMessage" (botHeaders this)
                (JSON_stringify (VObj [("channel", channel_id); ("text", text)]))).

Definition postReply (channel_id thread_ts text : value) : M value :=
  fetch_json (HttpPost "https://slack.com/api/chat.postMessage" (botHeaders this)
                (JSON_stringify (VObj [("channel", channel_id);
                                       ("thread_ts", thread_ts);
                                       ("text", text)]))).

Definition addReaction (channel_id timestamp reaction : value) : M value :=
  fetch_json (HttpPost "https://slack.com/api/reactions.add" (botHeaders this)
                (JSON_stringify (VObj [("channel", channel_id);
                                       ("timestamp", timestamp);
                                       ("name", reaction)]))).

(** [getChannelHistory(channel_id, limit = 10)] *)
Definition getChannelHistory (channel_id limit : value) : M value :=
  let limit := default_to (VNum 10) limit in
  l <- lift (call_toString "limit" limit) ;;
  channel <- lift (ToString channel_id) ;;
  fetch_json (HttpGet "https://slack.com/api/conversations.history"
                [("channel", channel); ("limit", l)] (botHeaders this)).

Definition getThreadReplies (channel_id thread_ts : value) : M value :=
  channel <- lift (ToString channel_id) ;;
  ts <- lift (ToString thread_ts) ;;
  fetch_json (HttpGet "https://slack.com/api/conversations.replies"
                [("channel", channel); ("ts", ts)] (botHeaders this)).

(** [getUsers(limit = 100, cursor?)] *)
Definition getUsers (limit cursor : value) : M value :=
  let limit := default_to (VNum 100) limit in
  n <- lift (ToNumber limit) ;;
  team_id <- lift (process_env "SLACK_TEAM_ID") ;;
  team <- lift (ToString team_id) ;;
  let params := [("limit", number_toString (Math_min n (Num 200)));
                 ("team_id", team)] in
  params <- (if truthy cursor
             then c <- lift (ToString cursor) ;; ret (params ++ [("cursor", c)])%list
             else ret params) ;;
  fetch_json (HttpGet "https://slack.com/api/users.list" params (botHeaders this)).

Definition getUserProfile (user_id : value) : M value :=
  user <- lift (ToString user_id) ;;
  fetch_json (HttpGet "https://slack.com/api/users.profile.get"
                [("user", user); ("include_labels", "true")] (botHeaders this)).

End Operations.

(** *** Tool dispatch *)

(** [{ content: [{ type: "text", text: JSON.stringify(response) }] }] *)
Definition text_content (response : value) : value :=
  VObj [("content", VArr [VObj [("type", VStr "text");
                                ("text", stringify response)]])].

(** The content both [catch] blocks build from the caught error:
    [JSON.stringify({ error: error.message })] as a text item. *)
Definition error_content (message : exn) : value :=
  text_content (VObj [("error", VStr message)]).

Section Dispatch.

Variable slackClient : SlackClient.

(** What the call of [getChannels] passes as its third argument: the
    registered handler passes [env], the dispatch inside [fetch] passes
    nothing. *)
Variable channels_env : option Env.

(** The body of the [try] block around a tool call: the check for
    arguments and the [switch] on the tool name. The source has it
    twice, in the handler registered for [CallToolRequestSchema] and
    inline in [fetch]; the two differ in [channels_env] only. Its value
    is the [result] object. *)
Definition call_tool (name arguments : value) : M value :=
  if negb (truthy arguments) then throw "No arguments provided" else
  let args := arguments in
  if is_str name "slack_list_channels" then
    response <- getChannels slackClient (get args "limit") (get args "cursor")
                  channels_env ;;
    ret (text_content response)
  else if is_str name "slack_post_message" then
    if negb (truthy (get args "channel_id")) || negb (truthy (get args "text"))
    then throw "Missing required arguments: channel_id and text"
    else
      response <- postMessage slackClient (get args "channel_id") (get args "text") ;;
      ret (text_content response)
  else if is_str name "slack_reply_to_thread" then
    if negb (truthy (get args "channel_id")) || negb (truthy (get args "thread_ts"))
       || negb (truthy (get args "text"))
    then throw "Missing required arguments: channel_id, thread_ts, and text"
    else
      response <- postReply slackClient (get args "channel_id")
                    (get args "thread_ts") (get args "text") ;;
      ret (text_content response)
  else if is_str name "slack_add_reaction" then
    if negb (truthy (get args "channel_id")) || negb (truthy (get args "timestamp"))
       || negb (truthy (get args "reaction"))
    then throw "Missing required arguments: channel_id, timestamp, and reaction"
    else
      response <- addReaction slackClient (get args "channel_id")
                    (get args "timestamp") (get args "reaction") ;;
      ret (text_content response)
  else if is_str name "slack_get_channel_history" then
    if negb (truthy (get args "channel_id"))
    then throw "Missing required argument: channel_id"
    else
      response <- getChannelHistory slackClient (get args "channel_id")
                    (get args "limit") ;;
      ret (text_content response)
  else if is_str name "slack_get_thread_replies" then
    if negb (truthy (get args "channel_id")) || negb (truthy (get args "thread_ts"))
    then throw "Missing required arguments: channel_id and thread_ts"
    else
      response <- getThreadReplies slackClient (get args "channel_id")
                    (get args "thread_ts") ;;
      ret (text_content response)
  else if is_str name "slack_get_users" then
    response <- getUsers slackClient (get args "limit") (get args "cursor") ;;
    ret (text_content response)
  else if is_str name "slack_get_user_profile" then
    if negb (truthy (get args "user_id"))
    then throw "Missing required argument: user_id"
    else
      response <- getUserProfile slackClient (get args "user_id") ;;
      ret (text_content response)
  else
    shown <- lift (ToString name) ;;
    throw ("Unknown tool: " ++ shown).

End Dispatch.

(** The handler registered with [server.setRequestHandler] for
    [CallToolRequestSchema]; [request] has passed the schema, so
    [request.params] is an object. *)
Definition callToolHandler (slackClient : SlackClient) (env : Env) (request : value)
    : M value :=
  try_catch
    (call_tool slackClient (Some env)
       (get (get request "params") "name")
       (get (get request "params") "arguments"))
    (fun message => ret (error_content message)).

(** The handler registered for [ListToolsRequestSchema]. *)
Definition listToolsHandler : M value :=
  ret (VObj [("tools", VArr Tools.tools)]).

(** *** The request handler *)

Definition cors_json : Headers :=
  [("Content-Type", "application/json");
   ("Access-Control-Allow-Origin", "*");
   ("Access-Control-Allow-Methods", "POST, GET, OPTIONS");
   ("Access-Control-Allow-Headers", "Content-Type")].

Definition cors_preflight : Headers :=
  [("Access-Control-Allow-Origin", "*");
   ("Access-Control-Allow-Methods", "POST, GET, OPTIONS");
   ("Access-Control-Allow-Headers", "Content-Type");
   ("Access-Control-Max-Age", "86400")].

(** [new Response(JSON.stringify(v), { status, headers })] *)
Definition json_response (status : Z) (v : value) : Response :=
  {| status := status; headers := cors_json; body := JSON_stringify v |}.

(** The branch of the [if]/[else if] chain a decoded body selects. *)
Inductive Kind : Type :=
| CallTool
| ListTools
| Initialize
| Notification
| Unsupported.

(** [requestBody.method.startsWith(p)] for a truthy [method]. *)
Definition startsWith (v : value) (p : string) : result bool :=
  match v with
  | VStr s => Ok (prefix p s)
  | _ => Throw "requestBody.method.startsWith is not a function"
  end.

(** The four flags [isCallTool], [isListTools], [isInitialize],
    [isNotification] and the branch the chain takes on them; [Unsupported]
    is the case where none holds. *)
Definition classify (requestBody : value) : result Kind :=
  rbind (member requestBody "type") (fun type =>
  let method := get requestBody "method" in
  let isCallTool := is_str type "call_tool" || is_str method "tools/call" in
  let isListTools := is_str type "list_tools" || is_str method "tools/list"
                     || is_str method "list" in
  let isInitialize := is_str method "initialize" in
  rbind (if truthy method then startsWith method "notifications/" else Ok false)
    (fun isNotification =>
  Ok (if isCallTool then CallTool
      else if isListTools then ListTools
      else if isInitialize then Initialize
      else if isNotification then Notification
      else Unsupported))).

(** [callToolRequest.params.name] and [callToolRequest.params.arguments] *)
Definition canonical_name (requestBody : value) : value :=
  let params := get requestBody "params" in
  or_else (or_else (opt_member params "name") (opt_member params "tool"))
          (VStr EmptyString).

Definition canonical_arguments (requestBody : value) : value :=
  let params := get requestBody "params" in
  or_else (or_else (opt_member params "arguments") (opt_member params "parameters"))
          (VObj []).

(** The JSON-RPC envelope of a successful tool call. *)
Definition call_result (requestBody result : value) : value :=
  VObj [("jsonrpc", VStr "2.0");
        ("id", match get requestBody "id" with
               | VUndef => VNum 0
               | id => id
               end);
        ("result", result)].

Definition list_result (requestBody : value) : value :=
  VObj [("jsonrpc", VStr "2.0");
        ("id", or_else (get requestBody "id") (VNum 0));
        ("result", VObj [("tools", VArr Tools.tools)])].

Definition initialize_result (requestBody : value) : value :=
  VObj [("jsonrpc", VStr "2.0");
        ("id", get requestBody "id");
        ("result",
         VObj [("protocolVersion", VStr "2024-11-05");
               ("serverInfo", VObj [("name", VStr "slack-mcp-remote");
                                    ("version", VStr "1.0.0")]);
               ("capabilities", VObj [("tools", VObj [])])])].

Definition notification_result : value :=
  VObj [("jsonrpc", VStr "2.0"); ("result", VNull)].

Definition config_error (env : Env) : value :=
  VObj [("error",
         VStr "Missing required environment variables: SLACK_BOT_TOKEN and SLACK_TEAM_ID");
        ("debug",
         VObj [("hasToken", VBool (truthy (env_get env "SLACK_BOT_TOKEN")));
               ("hasTeamId", VBool (truthy (env_get env "SLACK_TEAM_ID")));
               ("hasChannelIds", VBool (truthy (env_get env "SLACK_CHANNEL_IDS")));
               ("envKeys", env_keys env)])].

(** The tool call made inline by [fetch], with its [try]/[catch]: both
    ways out are a [Response] of default status. *)
Definition handle_call_tool (slackClient : SlackClient) (requestBody : value)
    : state -> Response * state :=
  fun st =>
    match call_tool slackClient None (canonical_name requestBody)
            (canonical_arguments requestBody) st with
    | (Ok result, st') => (json_response 200 (call_result requestBody result), st')
    | (Throw message, st') => (json_response 200 (error_content message), st')
    end.

(** The tool call [fetch] makes for a body of the tool-call branch; its
    result is the outcome of the dispatch. *)
Definition dispatch (env : Env) (requestBody : value) : M value :=
  call_tool (new_SlackClient (env_get env "SLACK_BOT_TOKEN")) None
    (canonical_name requestBody) (canonical_arguments requestBody).

Definition fetch (request : Request) (env : Env) : state -> Response * state :=
  fun st =>
    let botToken := env_get env "SLACK_BOT_TOKEN" in
    let teamId := env_get env "SLACK_TEAM_ID" in
    if negb (truthy botToken) || negb (truthy teamId) then
      (json_response 500 (config_error env), st)
    else
      let slackClient := new_SlackClient botToken in
      match decoded request with
      | None =>
          (json_response 400 (VObj [("error", VStr "Invalid JSON in request")]), st)
      | Some requestBody =>
          match classify requestBody with
          | Throw _ =>
              (json_response 400 (VObj [("error", VStr "Invalid request format")]), st)
          | Ok CallTool => handle_call_tool slackClient requestBody st
          | Ok ListTools => (json_response 200 (list_result requestBody), st)
          | Ok Initialize => (json_response 200 (initialize_result requestBody), st)
          | Ok Notification => (json_response 200 notification_result, st)
          | Ok Unsupported =>
              if (method request =? "OPTIONS")%string then
                ({| status := 200; headers := cors_preflight; body := None |}, st)
              else
                (json_response 400
                   (VObj [("error", VStr "Unsupported request type or missing handler");
                          ("received", requestBody)]), st)
          end
      end.

(** *** Shapes of a computation *)

(** What a computation that ends in a single API call leaves behind. *)
Definition after_call (st : state) (c : api_call) : state :=
  {| world := snd (slack_api (world st) c); sent := (sent st ++ [c])%list |}.

(** A computation is a single round trip when it either throws before
    calling the API, leaving the store alone, or makes exactly one call
    whose outcome, wrapped as text content, is its own. *)
Definition single_round_trip (m : M value) : Prop :=
  forall st,
    (exists e, m st = (Throw e, st))
    \/ (exists c,
          m st = (match fst (slack_api (world st) c) with
                  | Throw e => Throw e
                  | Ok data => Ok (text_content data)
                  end, after_call st c)).

End Worker.

(** ** Vocabulary of the properties *)

(** The process-wide configuration [fetch] insists on. *)
Definition configured (env : Env) : Prop :=
  truthy (env_get env "SLACK_BOT_TOKEN") = true
  /\ truthy (env_get env "SLACK_TEAM_ID") = true.

(** [Object.keys(v)] *)
Definition keys (v : value) : list string :=
  match v with
  | VObj props => map fst props
  | _ => []
  end.

(** Writes a JSON text with apostrophes in place of its double quotes. *)
Fixpoint sq (s : string) : string :=
  match s with
  | EmptyString => EmptyString
  | String c rest => String (if Ascii.eqb c "'"%char then dquote else c) (sq rest)
  end.

(** The value of the [limit] entry of a call's query, if it has one,
    and the limits a sequence of calls carries. *)
Definition limit_of (c : api_call) : option string :=
  match c with
  | HttpGet _ query _ => assoc "limit" query
  | HttpPost _ _ _ => None
  end.

Definition limits_sent (calls : list api_call) : list string :=
  flat_map (fun c => match limit_of c with Some l => [l] | None => [] end) calls.

(** The lookup of one channel, and what makes a looked-up channel one
    that [getChannels] keeps. *)
Definition channel_lookup (client : SlackClient) (channelId : string) : api_call :=
  HttpGet "https://slack.com/api/conversations.info" [("channel", channelId)]
    (botHeaders client).

Definition not_archived (channel : value) : Prop :=
  truthy channel = true /\ truthy (get channel "is_archived") = false.

(** The wire text of the failure body for a caught error of message
    [message]: [{"content":[{"type":"text","text":T}]}] where [T] is the
    JSON string literal of [{"error":"message"}]. *)
Definition error_text (message : exn) : string :=
  sq "{'content':[{'type':'text','text':"
  ++ json_quote (sq "{'error':" ++ json_quote message ++ "}")
  ++ "}]}".

(** The wire text of the answer to [initialize], given the text of the
    request id ([None] when the request has none). *)
Definition initialize_text (id : option string) : string :=
  sq "{'jsonrpc':'2.0'"
  ++ match id with
     | Some s => sq ",'id':" ++ s
     | None => EmptyString
     end
  ++ sq ",'result':{'protocolVersion':'2024-11-05','serverInfo':{'name':'slack-mcp-remote','version':'1.0.0'},'capabilities':{'tools':{}}}}".

(** *** The specification's reading of the normalizer *)

(** The classification as section 4.1 of the specification words it:
    [method] of [tools/call] or [type] of [call_tool], then
    [tools/list], [list] or [list_tools], then [initialize], then the
    prefix [notifications/], and anything else unsupported. *)
Definition spec_kind (requestBody : value) : Kind :=
  let method := get requestBody "method" in
  let type := get requestBody "type" in
  if is_str method "tools/call" || is_str type "call_tool" then CallTool
  else if is_str method "tools/list" || is_str method "list"
          || is_str type "list_tools" then ListTools
  else if is_str method "initialize" then Initialize
  else if match method with
          | VStr s => prefix "notifications/" s
          | _ => false
          end then Notification
  else Unsupported.

(** A body on which the four flags can be computed: it is not [null],
    and its [method] is a string unless it is falsy. *)
Definition classifiable (requestBody : value) : Prop :=
  requestBody <> VNull /\ requestBody <> VUndef
  /\ (truthy (get requestBody "method") = true ->
      exists s, get requestBody "method" = VStr s).

(** The specification's rule for a field with a legacy fallback: the
    primary field wins whenever it is present and non-empty, and the
    fallback is used otherwise. *)
Definition present_nonempty (v : value) : bool :=
  match v with
  | VUndef => false
  | VStr s => negb (s =? EmptyString)%string
  | VArr [] => false
  | VObj [] => false
  | _ => true
  end.

Definition spec_pick (primary fallback : value) : value :=
  if present_nonempty primary then primary else fallback.

(** *** The two request shapes *)

Definition id_field (id : value) : list (string * value) :=
  match id with
  | VUndef => []
  | _ => [("id", id)]
  end.

(** [{ type: "call_tool", id, params: { tool, parameters } }] *)
Definition legacy_call (tool parameters id : value) : value :=
  VObj ([("type", VStr "call_tool")] ++ id_field id
        ++ [("params", VObj [("tool", tool); ("parameters", parameters)])]).

(** [{ method: "tools/call", id, params: { name, arguments } }] *)
Definition modern_call (name arguments id : value) : value :=
  VObj ([("method", VStr "tools/call")] ++ id_field id
        ++ [("params", VObj [("name", name); ("arguments", arguments)])]).

(** ** A small workspace to run the worker against *)

Module Demo.

(** The store counts the calls served. A channel lookup answers with the
    channel asked for, [C2] being archived; every other GET answers
    [{ ok: true }]; every POST fails in the network. *)
Definition slack_api (w : nat) (c : api_call) : result value * nat :=
  match c with
  | HttpGet url query _ =>
      if (url =? "https://slack.com/api/conversations.info")%string then
        let id := match assoc "channel" query with
                  | Some i => i
                  | None => EmptyString
                  end in
        (Ok (VObj [("ok", VBool true);
                   ("channel", VObj [("id", VStr id);
                                     ("is_archived", VBool (id =? "C2")%string)])]),
         S w)
      else (Ok (VObj [("ok", VBool true)]), S w)
  | HttpPost _ _ _ => (Throw "fetch failed", S w)
  end.

(** No run below converts a string to a number. *)
Definition StringToNumber (s : string) : number := NaN.

Definition env : Env :=
  [("SLACK_BOT_TOKEN", "xoxb-1"); ("SLACK_TEAM_ID", "T1")].

Definition env_with_channels : Env :=
  [("SLACK_BOT_TOKEN", "xoxb-1"); ("SLACK_TEAM_ID", "T1");
   ("SLACK_CHANNEL_IDS", "C1, C2,C3")].

Definition start : state nat := {| world := O; sent := [] |}.

Definition client : SlackClient := new_SlackClient (VStr "xoxb-1").

Definition post (requestBody : value) : Request :=
  {| method := "POST"; decoded := Some requestBody |}.

Definition run (e : Env) (request : Request) : Response * state nat :=
  fetch slack_api StringToNumber NoProcess request e start.

(** Scenario A of the specification:
    [{"method":"tools/call","params":{"name":"slack_post_message","params":{}}}] *)
Definition scenario_A : value :=
  VObj [("method", VStr "tools/call");
        ("params", VObj [("name", VStr "slack_post_message");
                         ("params", VObj [])])].

Definition post_message_call : value :=
  modern_call (VStr "slack_post_message")
    (VObj [("channel_id", VStr "C1"); ("text", VStr "hello")]) (VNum 7).

Definition list_channels_call : value :=
  modern_call (VStr "slack_list_channels") (VObj []) (VNum 1).

(** A reply without its [thread_ts]. *)
Definition reply_without_thread : value :=
  modern_call (VStr "slack_reply_to_thread")
    (VObj [("channel_id", VStr "C1"); ("text", VStr "hello")]) (VNum 2).

(** A tool call with an empty [arguments] and a filled [parameters]. *)
Definition both_argument_fields : value :=
  VObj [("method", VStr "tools/call");
        ("params",
         VObj [("name", VStr "slack_post_message");
               ("arguments", VObj []);
               ("parameters",
                VObj [("channel_id", VStr "C1"); ("text", VStr "hello")])])].

(** A legacy tool call whose [method] is a number. *)
Definition numeric_method : value :=
  VObj [("type", VStr "call_tool"); ("method", VNum 5)].

Definition options (requestBody : option value) : Request :=
  {| method := "OPTIONS"; decoded := requestBody |}.

(** The call [postMessage] makes for [post_message_call]. *)
Definition post_message_sent : api_call :=
  HttpPost "https://slack.com/api/chat.postMessage" (botHeaders client)
    (JSON_stringify (VObj [("channel", VStr "C1"); ("text", VStr "hello")])).

End Demo.

(** ** Vocabulary of the further properties *)

Definition url_of (c : api_call) : string :=
  match c with
  | HttpGet url _ _ => url
  | HttpPost url _ _ => url
  end.

Definition headers_of (c : api_call) : Headers :=
  match c with
  | HttpGet _ _ h => h
  | HttpPost _ h _ => h
  end.

(** The value of a response header. *)
Definition header (k : string) (r : Response) : option string := assoc k (headers r).

(** A computation calls the API at most once, and only with a call of
    the kind [P]: it leaves the store alone, or leaves it as one such
    call does. *)
Definition calls_only {World A : Type}
    (slack_api : World -> api_call -> result value * World)
    (P : api_call -> Prop) (m : M World A) : Prop :=
  forall st,
    snd (m st) = st
    \/ exists c, snd (m st) = after_call slack_api st c /\ P c.

(** The URL that the operation behind each case of the tool [switch]
    fetches. *)
Definition endpoint (name : string) : option string :=
  if (name =? "slack_list_channels")%string
  then Some "https://slack.com/api/conversations.list"
  else if (name =? "slack_post_message")%string
  then Some "https://slack.com/api/chat.postMessage"
  else if (name =? "slack_reply_to_thread")%string
  then Some "https://slack.com/api/chat.postMessage"
  else if (name =? "slack_add_reaction")%string
  then Some "https://slack.com/api/reactions.add"
  else if (name =? "slack_get_channel_history")%string
  then Some "https://slack.com/api/conversations.history"
  else if (name =? "slack_get_thread_replies")%string
  then Some "https://slack.com/api/conversations.replies"
  else if (name =? "slack_get_users")%string
  then Some "https://slack.com/api/users.list"
  else if (name =? "slack_get_user_profile")%string
  then Some "https://slack.com/api/users.profile.get"
  else None.

(** The names of the listed tools. *)
Definition tool_names : list string :=
  flat_map (fun t => match Tools.name_of t with VStr s => [s] | _ => [] end) Tools.tools.

(** The response and the store after a tool call that came down to the
    one call [c]: the answer of the API in the result envelope, or the
    failure body of the message the call failed with. *)
Definition call_answer {World : Type}
    (slack_api : World -> api_call -> result value * World)
    (requestBody : value) (st : state World) (c : api_call)
    : Response * state World :=
  (json_response 200
     match fst (slack_api (world st) c) with
     | Throw e => error_content e
     | Ok data => call_result requestBody (text_content data)
     end,
   after_call slack_api st c).

(** The [cursor] entry of a listing query for a cursor argument that is
    falsy or a string. *)
Definition cursor_entry (cursor : value) : list (string * string) :=
  match cursor with
  | VStr c => if (c =? EmptyString)%string then [] else [("cursor", c)]
  | _ => []
  end.

(** A workspace in which every call is answered, and answered with an
    error of the application. *)
Module Outage.

Definition slack_api (w : nat) (c : api_call) : result value * nat :=
  (Ok (VObj [("ok", VBool false); ("error", VStr "channel_not_found")]), S w).

Definition run (e : Env) (request : Request) : Response * state nat :=
  fetch slack_api Demo.StringToNumber NoProcess request e Demo.start.

End Outage.

(** Requests for the further properties. *)
Module Cases.

Definition bogus_tool_call : value :=
  modern_call (VStr "slack_bogus_tool") (VObj [("channel_id", VStr "C1")]) (VNum 3).

(** A message post whose channel id is the number 0. *)
Definition zero_channel_call : value :=
  modern_call (VStr "slack_post_message")
    (VObj [("channel_id", VNum 0); ("text", VStr "hello")]) (VNum 4).

Definition reaction_call : value :=
  modern_call (VStr "slack_add_reaction")
    (VObj [("channel_id", VStr "C1"); ("timestamp", VStr "1700000000.000100");
           ("reaction", VStr "thumbsup")]) (VNum 5).

Definition reaction_sent : api_call :=
  HttpPost "https://slack.com/api/reactions.add" (botHeaders Demo.client)
    (JSON_stringify (VObj [("channel", VStr "C1");
                           ("timestamp", VStr "1700000000.000100");
                           ("name", VStr "thumbsup")])).

Definition listing_with_cursor : value :=
  modern_call (VStr "slack_list_channels")
    (VObj [("limit", VNum 50); ("cursor", VStr "dXNlcjpVMDYx")]) (VNum 6).


Definition users_call : value :=
  modern_call (VStr "slack_get_users") (VObj []) (VNum 9).

(** The [process.env] of a runtime that has one. *)
Definition process_env : Env := [("SLACK_TEAM_ID", "T9")].


Definition list_tools_null_id : value :=
  VObj [("method", VStr "tools/list"); ("id", VNull)].

Definition notification_with_id : value :=
  VObj [("method", VStr "notifications/initialized"); ("id", VNum 12)].

(** An environment that lacks the bot token. *)
Definition env_without_token : Env := [("SLACK_TEAM_ID", "T1")].

(** A limit that has no conversion to a number. *)
Definition unconvertible : value := VObj [("toString", VNum 1)].

(** A thread request whose [thread_ts] is a number. *)
Definition replies_call : value :=
  modern_call (VStr "slack_get_thread_replies")
    (VObj [("channel_id", VStr "C1"); ("thread_ts", VNum 1700000000)]) (VNum 10).

(** A profile request whose [user_id] has no conversion to a string. *)
Definition profile_call : value :=
  modern_call (VStr "slack_get_user_profile") (VObj [("user_id", unconvertible)])
    (VNum 11).

End Cases.

(** ** Properties *)

Section Properties.

Variable World : Type.
Variable slack_api : World -> api_call -> result value * World.
Variable StringToNumber : string -> number.
Variable process : process_global.

Local Abbreviation Fetch := (fetch slack_api StringToNumber process).
Local Abbreviation Call := (call_tool slack_api StringToNumber process).
Local Abbreviation Handle := (handle_call_tool slack_api StringToNumber process).
Local Abbreviation Dispatch := (dispatch slack_api StringToNumber process).

Lemma opt_member_get v k : opt_member v k = get v k.
Proof. destruct v; reflexivity. Qed.

Lemma append_assoc (a b c : string) : ((a ++ b) ++ c = a ++ (b ++ c))%string.
Proof. induction a as [|x a IH]; simpl; [reflexivity | now rewrite IH]. Qed.

Lemma error_content_text message :
  JSON_stringify (error_content message) = Some (error_text message).
Proof.
  unfold error_content, text_content, stringify, error_text.
  cbn. rewrite !append_assoc. reflexivity.
Qed.

(** Past the configuration check and the decoding, [fetch] is the chain
    of branches on the classification of the body. *)
Lemma fetch_decoded request env requestBody st :
  configured env ->
  decoded request = Some requestBody ->
  Fetch request env st =
  match classify requestBody with
  | Throw _ =>
      (json_response 400 (VObj [("error", VStr "Invalid request format")]), st)
  | Ok CallTool =>
      Handle (new_SlackClient (env_get env "SLACK_BOT_TOKEN")) requestBody st
  | Ok ListTools => (json_response 200 (list_result requestBody), st)
  | Ok Initialize => (json_response 200 (initialize_result requestBody), st)
  | Ok Notification => (json_response 200 notification_result, st)
  | Ok Unsupported =>
      if (method request =? "OPTIONS")%string then
        ({| status := 200; headers := cors_preflight; body := None |}, st)
      else
        (json_response 400
           (VObj [("error", VStr "Unsupported request type or missing handler");
                  ("received", requestBody)]), st)
  end.
Proof.
  intros [Htoken Hteam] Hbody.
  unfold fetch. rewrite Htoken, Hteam, Hbody. reflexivity.
Qed.

Lemma fetch_call_tool request env requestBody st :
  configured env ->
  decoded request = Some requestBody ->
  classify requestBody = Ok CallTool ->
  Fetch request env st =
  Handle (new_SlackClient (env_get env "SLACK_BOT_TOKEN")) requestBody st.
Proof.
  intros Henv Hbody Hkind.
  rewrite (fetch_decoded _ st Henv Hbody), Hkind. reflexivity.
Qed.

(** *** One round trip per tool call *)

Lemma fetch_json_run c st :
  fetch_json slack_api c st = (fst (slack_api (world st) c), after_call slack_api st c).
Proof.
  unfold fetch_json, after_call. destruct (slack_api (world st) c); reflexivity.
Qed.

Lemma single_throw e : single_round_trip slack_api (throw e).
Proof. intros st. left. exists e. reflexivity. Qed.

Ltac split_results :=
  repeat match goal with
         | |- context [match ?r with Throw _ => _ | Ok _ => _ end] =>
             destruct r eqn:?
         | |- context [if ?b then _ else _] => destruct b eqn:?
         end.

Ltac one_round_trip :=
  first [ left; eexists; reflexivity
        | match goal with
          | |- context [fetch_json slack_api ?c ?st] =>
              rewrite (fetch_json_run c st); right; exists c;
              destruct (fst (slack_api (world st) c)); reflexivity
          end ].

Ltac single_op op :=
  intros st; unfold op, bind, lift, ret, throw; cbn [truthy negb];
  split_results; one_round_trip.

Local Abbreviation then_content m :=
  (bind m (fun response => ret (text_content response))).

Lemma single_getChannels client limit cursor :
  single_round_trip slack_api
    (then_content (getChannels slack_api StringToNumber client limit cursor None)).
Proof. single_op @getChannels. Qed.

Lemma single_postMessage client channel_id text :
  single_round_trip slack_api (then_content (postMessage slack_api client channel_id text)).
Proof. single_op @postMessage. Qed.

Lemma single_postReply client channel_id thread_ts text :
  single_round_trip slack_api
    (then_content (postReply slack_api client channel_id thread_ts text)).
Proof. single_op @postReply. Qed.

Lemma single_addReaction client channel_id timestamp reaction :
  single_round_trip slack_api
    (then_content (addReaction slack_api client channel_id timestamp reaction)).
Proof. single_op @addReaction. Qed.

Lemma single_getChannelHistory client channel_id limit :
  single_round_trip slack_api
    (then_content (getChannelHistory slack_api client channel_id limit)).
Proof. single_op @getChannelHistory. Qed.

Lemma single_getThreadReplies client channel_id thread_ts :
  single_round_trip slack_api
    (then_content (getThreadReplies slack_api client channel_id thread_ts)).
Proof. single_op @getThreadReplies. Qed.

Lemma single_getUsers client limit cursor :
  single_round_trip slack_api
    (then_content (getUsers slack_api StringToNumber process client limit cursor)).
Proof. single_op @getUsers. Qed.

Lemma single_getUserProfile client user_id :
  single_round_trip slack_api (then_content (getUserProfile slack_api client user_id)).
Proof. single_op @getUserProfile. Qed.

(** Every tool call dispatched by [fetch] is a single round trip: the
    handler is invoked at most once, and a failure of the API is the
    failure of the tool call, message unchanged. *)
Lemma call_tool_single_round_trip client name arguments :
  single_round_trip slack_api (Call client None name arguments).
Proof.
  unfold call_tool.
  destruct (negb (truthy arguments)); [apply single_throw|].
  destruct (is_str name "slack_list_channels"); [apply single_getChannels|].
  destruct (is_str name "slack_post_message").
  { destruct (_ || _); [apply single_throw | apply single_postMessage]. }
  destruct (is_str name "slack_reply_to_thread").
  { destruct (_ || _); [apply single_throw | apply single_postReply]. }
  destruct (is_str name "slack_add_reaction").
  { destruct (_ || _); [apply single_throw | apply single_addReaction]. }
  destruct (is_str name "slack_get_channel_history").
  { destruct (negb _); [apply single_throw | apply single_getChannelHistory]. }
  destruct (is_str name "slack_get_thread_replies").
  { destruct (_ || _); [apply single_throw | apply single_getThreadReplies]. }
  destruct (is_str name "slack_get_users"); [apply single_getUsers|].
  destruct (is_str name "slack_get_user_profile").
  { destruct (negb _); [apply single_throw | apply single_getUserProfile]. }
  intros st. left. unfold bind, lift, throw.
  destruct (ToString name); eexists; reflexivity.
Qed.

(** *** C1: failures of a tool call *)

(** C1. For every request that reaches the tool-call branch, [fetch]
    answers with status 200 and the JSON headers whatever the tool call
    does; when the tool call throws, with the message [message], the
    answer is the failure body whose embedded text is
    [{"error":"message"}], and the store is the one the tool call left;
    in particular a failure of the Slack API call is reported with the
    message the API call failed with. *)
Theorem call_tool_failure_is_caught request env requestBody st :
  configured env ->
  decoded request = Some requestBody ->
  classify requestBody = Ok CallTool ->
  let outcome := Dispatch env requestBody st in
  status (fst (Fetch request env st)) = 200
  /\ headers (fst (Fetch request env st)) = cors_json
  /\ snd (Fetch request env st) = snd outcome
  /\ (forall message,
        fst outcome = Throw message ->
        fst (Fetch request env st) = json_response 200 (error_content message)
        /\ body (fst (Fetch request env st)) = Some (error_text message))
  /\ (forall c e,
        sent (snd outcome) = (sent st ++ [c])%list ->
        fst (slack_api (world st) c) = Throw e ->
        body (fst (Fetch request env st)) = Some (error_text e)).
Proof.
  intros Henv Hbody Hkind outcome.
  rewrite (fetch_call_tool _ st Henv Hbody Hkind).
  unfold handle_call_tool.
  change (Call _ None (canonical_name requestBody)
            (canonical_arguments requestBody) st) with outcome.
  assert (Hthrow : forall message, fst outcome = Throw message ->
            fst (match outcome with
                 | (Ok result, st') =>
                     (json_response 200 (call_result requestBody result), st')
                 | (Throw m, st') => (json_response 200 (error_content m), st')
                 end) = json_response 200 (error_content message)).
  { intros message Hout. destruct outcome as [[m|result] st']; simpl in *.
    - congruence.
    - discriminate. }
  repeat split.
  - destruct outcome as [[m|result] st']; reflexivity.
  - destruct outcome as [[m|result] st']; reflexivity.
  - destruct outcome as [[m|result] st']; reflexivity.
  - now apply Hthrow.
  - match goal with Hout : fst outcome = Throw _ |- _ => rewrite (Hthrow _ Hout) end.
    apply error_content_text.
  - intros c e Hsent Hapi.
    rewrite (Hthrow e); [apply error_content_text|].
    destruct (call_tool_single_round_trip
                (new_SlackClient (env_get env "SLACK_BOT_TOKEN"))
                (canonical_name requestBody) (canonical_arguments requestBody) st)
      as [[e' Hrun] | [c' Hrun]]; unfold outcome, dispatch in *; rewrite Hrun in *;
      simpl in *.
    + exfalso. apply (f_equal (@length _)) in Hsent.
      rewrite length_app in Hsent. simpl in Hsent. lia.
    + apply app_inv_head in Hsent. injection Hsent as ->.
      now rewrite Hapi.
Qed.

(** The registered handler has the same contract: it never throws, and
    a failure of the tool call becomes the error content. *)
Lemma callToolHandler_never_throws client env request st :
  exists content st',
    callToolHandler slack_api StringToNumber process client env request st
    = (Ok content, st')
    /\ (forall message,
          fst (Call client (Some env) (get (get request "params") "name")
                 (get (get request "params") "arguments") st) = Throw message ->
          content = error_content message).
Proof.
  unfold callToolHandler, try_catch, ret.
  destruct (Call client (Some env) _ _ st) as [[m|content] st'].
  - exists (error_content m), st'. split; [reflexivity|].
    intros message Hm. simpl in Hm. congruence.
  - exists content, st'. split; [reflexivity|]. intros message Hm. discriminate.
Qed.

(** *** C2: the classification of a decoded body *)

Lemma member_defined v k : v <> VNull -> v <> VUndef -> member v k = Ok (get v k).
Proof. intros Hn Hu. destruct v; try reflexivity; congruence. Qed.

(** C2, as the code has it. For every decoded body that is not [null]
    and whose [method] is a string unless it is falsy, the branch taken
    is the one the specification's priority order names; and a body
    that falls through all four tests is answered with status 400 and
    the body echoed, except under the transport method OPTIONS, where
    it is answered with the preflight headers, status 200 and no body. *)
Theorem classification_follows_priority_order requestBody :
  classifiable requestBody ->
  classify requestBody = Ok (spec_kind requestBody)
  /\ (forall request env st,
        configured env ->
        decoded request = Some requestBody ->
        spec_kind requestBody = Unsupported ->
        Fetch request env st
        = (if (method request =? "OPTIONS")%string
           then {| status := 200; headers := cors_preflight; body := None |}
           else json_response 400
                  (VObj [("error", VStr "Unsupported request type or missing handler");
                         ("received", requestBody)]),
           st)).
Proof.
  intros (Hnull & Hundef & Hmethod).
  assert (Hkind : classify requestBody = Ok (spec_kind requestBody)).
  { unfold classify, spec_kind. rewrite (member_defined _ Hnull Hundef). simpl.
    destruct (truthy (get requestBody "method")) eqn:Htruthy.
    - destruct (Hmethod eq_refl) as [s Hs]. rewrite Hs. simpl.
      destruct (is_str (get requestBody "type") "call_tool"),
        (is_str (get requestBody "type") "list_tools"),
        (s =? "tools/call")%string, (s =? "tools/list")%string,
        (s =? "list")%string, (s =? "initialize")%string,
        (prefix "notifications/" s); reflexivity.
    - assert (Hnot : forall lit, lit <> EmptyString ->
                is_str (get requestBody "method") lit = false).
      { intros lit Hlit. destruct (get requestBody "method") as [| |b|z|s|l|o];
          try reflexivity; try discriminate.
        simpl in *. destruct s; [|discriminate].
        destruct lit; [congruence | reflexivity]. }
      rewrite !Hnot by discriminate. simpl.
      assert (Hprefix : match get requestBody "method" with
                        | VStr s => prefix "notifications/" s
                        | _ => false
                        end = false).
      { destruct (get requestBody "method") as [| |b|z|s|l|o]; try reflexivity.
        destruct s; [reflexivity | discriminate]. }
      rewrite Hprefix.
      destruct (is_str (get requestBody "type") "call_tool"),
        (is_str (get requestBody "type") "list_tools"); reflexivity. }
  split; [exact Hkind|].
  intros request env st Henv Hbody Hunsupported.
  rewrite (fetch_decoded _ st Henv Hbody), Hkind, Hunsupported.
  destruct (method request =? "OPTIONS")%string; reflexivity.
Qed.

(** *** C3: the fields of a tool call and their fallbacks *)

Lemma or_else_chain a b c :
  or_else (or_else a b) c = if truthy a then a else if truthy b then b else c.
Proof.
  unfold or_else. destruct (truthy a) eqn:Ha; [now rewrite Ha | reflexivity].
Qed.

(** C3, as the code has it. The tool name is [params.name] when that is
    truthy, else [params.tool] when that is truthy, else the empty
    string; the arguments are [params.arguments] when truthy, else
    [params.parameters] when truthy, else the empty object. A non-empty
    string is truthy, so a non-empty [params.name] wins; every object is
    truthy, the empty one too, so [params.arguments] wins whenever it is
    an object. *)
Theorem primary_field_wins_when_truthy requestBody :
  let params := get requestBody "params" in
  canonical_name requestBody
  = (if truthy (get params "name") then get params "name"
     else if truthy (get params "tool") then get params "tool"
     else VStr EmptyString)
  /\ canonical_arguments requestBody
     = (if truthy (get params "arguments") then get params "arguments"
        else if truthy (get params "parameters") then get params "parameters"
        else VObj [])
  /\ (forall s, get params "name" = VStr s -> s <> EmptyString ->
                canonical_name requestBody = VStr s)
  /\ (forall props, get params "arguments" = VObj props ->
                    canonical_arguments requestBody = VObj props).
Proof.
  intros params.
  assert (Hname : canonical_name requestBody
                  = (if truthy (get params "name") then get params "name"
                     else if truthy (get params "tool") then get params "tool"
                     else VStr EmptyString)).
  { unfold canonical_name. rewrite or_else_chain, !opt_member_get. reflexivity. }
  assert (Hargs : canonical_arguments requestBody
                  = (if truthy (get params "arguments") then get params "arguments"
                     else if truthy (get params "parameters")
                          then get params "parameters"
                     else VObj [])).
  { unfold canonical_arguments. rewrite or_else_chain, !opt_member_get.
    reflexivity. }
  repeat split; [exact Hname | exact Hargs | |].
  - intros s Hs Hnonempty. rewrite Hname, Hs. simpl.
    destruct s; [congruence | reflexivity].
  - intros props Hprops. rewrite Hargs, Hprops. reflexivity.
Qed.

(** *** C4: the two request shapes *)

Lemma legacy_modern_name tool arguments id id' :
  canonical_name (legacy_call tool arguments id)
  = canonical_name (modern_call tool arguments id').
Proof.
  unfold canonical_name. rewrite !or_else_chain, !opt_member_get.
  destruct id, id'; simpl; destruct (truthy tool); reflexivity.
Qed.

Lemma legacy_modern_arguments tool arguments id id' :
  canonical_arguments (legacy_call tool arguments id)
  = canonical_arguments (modern_call tool arguments id').
Proof.
  unfold canonical_arguments. rewrite !or_else_chain, !opt_member_get.
  destruct id, id'; simpl; destruct (truthy arguments); reflexivity.
Qed.

Lemma legacy_modern_id tool arguments id :
  get (legacy_call tool arguments id) "id" = get (modern_call tool arguments id) "id".
Proof. destruct id; reflexivity. Qed.

Lemma legacy_is_call_tool tool arguments id :
  classify (legacy_call tool arguments id) = Ok CallTool.
Proof. destruct id; reflexivity. Qed.

Lemma modern_is_call_tool tool arguments id :
  classify (modern_call tool arguments id) = Ok CallTool.
Proof. destruct id; reflexivity. Qed.

(** C4. A legacy-shaped request ([type], [params.tool],
    [params.parameters]) and a modern-shaped request ([method],
    [params.name], [params.arguments]) with the same tool name and the
    same arguments are dispatched to the same outcome and leave the same
    store, whatever their ids; with the same id too they are answered
    with the same response, byte for byte. *)
Theorem format_independence tool arguments id id' m env st :
  Dispatch env (legacy_call tool arguments id) st
  = Dispatch env (modern_call tool arguments id') st
  /\ Fetch {| method := m; decoded := Some (legacy_call tool arguments id) |} env st
     = Fetch {| method := m; decoded := Some (modern_call tool arguments id) |} env st.
Proof.
  split.
  - unfold dispatch.
    now rewrite (legacy_modern_name _ _ id id'), (legacy_modern_arguments _ _ id id').
  - unfold fetch. cbn [decoded].
    rewrite legacy_is_call_tool, modern_is_call_tool.
    unfold handle_call_tool, call_result.
    now rewrite (legacy_modern_name _ _ id id), (legacy_modern_arguments _ _ id id),
      legacy_modern_id.
Qed.

(** *** C5: missing required arguments *)

Lemma canonical_arguments_truthy requestBody :
  truthy (canonical_arguments requestBody) = true.
Proof.
  unfold canonical_arguments. rewrite or_else_chain.
  destruct (truthy (opt_member _ "arguments")) eqn:Hprimary; [exact Hprimary|].
  destruct (truthy (opt_member _ "parameters")) eqn:Hfallback;
    [exact Hfallback | reflexivity].
Qed.

Lemma missing_is_falsy v : v = VUndef \/ v = VStr EmptyString -> truthy v = false.
Proof. intros [-> | ->]; reflexivity. Qed.

(** The response to a tool call that throws. *)
Lemma fetch_dispatch_throw request env requestBody st message st' :
  configured env ->
  decoded request = Some requestBody ->
  classify requestBody = Ok CallTool ->
  Dispatch env requestBody st = (Throw message, st') ->
  Fetch request env st
  = ({| status := 200; headers := cors_json; body := Some (error_text message) |}, st').
Proof.
  intros Henv Hbody Hkind Hrun.
  rewrite (fetch_call_tool _ st Henv Hbody Hkind).
  unfold handle_call_tool. unfold dispatch in Hrun. rewrite Hrun.
  unfold json_response. now rewrite error_content_text.
Qed.

Ltac missing_argument Hname Hmissing :=
  unfold dispatch, call_tool; rewrite Hname, canonical_arguments_truthy;
  cbn [negb is_str String.eqb Ascii.eqb Bool.eqb];
  rewrite (missing_is_falsy Hmissing); cbn [negb orb];
  rewrite ?orb_true_r; reflexivity.

(** C5. For every request that reaches the tool-call branch and names a
    registered tool, if a parameter that the tool's descriptor lists
    under [required] is absent from the arguments or is the empty
    string, the tool call throws without calling the API, the store is
    left alone, the message names that parameter, and the answer has
    status 200 with the failure body of that message. In particular
    scenario A of the specification is answered with status 200 and the
    body
    [{"content":[{"type":"text","text":"{\"error\":\"Missing required arguments: channel_id and text\"}"}]}]. *)
Theorem missing_required_argument_is_reported :
  (forall tool p request env requestBody st,
      configured env ->
      decoded request = Some requestBody ->
      classify requestBody = Ok CallTool ->
      In tool Tools.tools ->
      canonical_name requestBody = Tools.name_of tool ->
      In p (Tools.required_of tool) ->
      get (canonical_arguments requestBody) p = VUndef
      \/ get (canonical_arguments requestBody) p = VStr EmptyString ->
      exists message,
        Dispatch env requestBody st
        = (Throw message, st)
        /\ Text.includes message p = true
        /\ Fetch request env st
           = ({| status := 200; headers := cors_json;
                 body := Some (error_text message) |}, st))
  /\ (forall request env st,
        configured env ->
        decoded request = Some Demo.scenario_A ->
        Fetch request env st
        = ({| status := 200; headers := cors_json;
              body := Some (sq "{'content':[{'type':'text','text':'{\'error\':\'Missing required arguments: channel_id and text\'}'}]}") |},
           st)).
Proof.
  split.
  - intros tool p request env requestBody st Henv Hbody Hkind Htool Hname Hp Hmissing.
    assert (Hrun : exists message,
               Dispatch env requestBody st
               = (Throw message, st)
               /\ Text.includes message p = true).
    { unfold Tools.tools in Htool. simpl in Htool.
      repeat (destruct Htool as [<- | Htool]); try contradiction;
        cbn in Hname; cbn in Hp;
        repeat (destruct Hp as [<- | Hp]); try contradiction;
        eexists; (split; [missing_argument Hname Hmissing | reflexivity]). }
    destruct Hrun as (message & Hrun & Hnames).
    exists message. repeat split; [exact Hrun | exact Hnames |].
    eapply fetch_dispatch_throw; eassumption.
  - intros request env st Henv Hbody.
    rewrite (fetch_decoded _ st Henv Hbody). reflexivity.
Qed.

(** *** C6: the id of an initialize answer *)

(** C6. For every request that reaches the initialize branch, the answer
    carries the request's own id: its [id] property is the request's,
    and its wire text has an [id] member exactly when the request has an
    id, with the request's value, so that a request without id gets an
    answer without id, an id of 0 stays 0 and an id of [null] stays
    [null]; the tool-call envelope, by contrast, puts 0 for a missing
    id. *)
Theorem initialize_echoes_id request env requestBody st :
  configured env ->
  decoded request = Some requestBody ->
  classify requestBody = Ok Initialize ->
  Fetch request env st = (json_response 200 (initialize_result requestBody), st)
  /\ get (initialize_result requestBody) "id" = get requestBody "id"
  /\ body (json_response 200 (initialize_result requestBody))
     = Some (initialize_text (JSON_stringify (get requestBody "id")))
  /\ (get requestBody "id" = VUndef ->
      body (fst (Fetch request env st)) = Some (initialize_text None))
  /\ (get requestBody "id" = VNum 0 ->
      body (fst (Fetch request env st)) = Some (initialize_text (Some "0")))
  /\ (get requestBody "id" = VNull ->
      body (fst (Fetch request env st)) = Some (initialize_text (Some "null")))
  /\ (forall result,
        get requestBody "id" = VUndef ->
        get (call_result requestBody result) "id" = VNum 0).
Proof.
  intros Henv Hbody Hkind.
  assert (Htext : body (json_response 200 (initialize_result requestBody))
                  = Some (initialize_text (JSON_stringify (get requestBody "id")))).
  { unfold initialize_result, initialize_text, json_response. cbn.
    destruct (JSON_stringify (get requestBody "id")) as [id|]; cbn.
    - rewrite !append_assoc. reflexivity.
    - reflexivity. }
  rewrite (fetch_decoded _ st Henv Hbody), Hkind.
  repeat split; try reflexivity; try assumption.
  - intros Hid. cbn [fst]. rewrite Htext, Hid. reflexivity.
  - intros Hid. cbn [fst]. rewrite Htext, Hid. reflexivity.
  - intros Hid. cbn [fst]. rewrite Htext, Hid. reflexivity.
  - intros result Hid. unfold call_result. cbn. rewrite Hid. reflexivity.
Qed.

(** *** C7: the limit of the paginated listings *)

(** A limit with a numeric value is not [undefined], so no default
    replaces it. *)
Lemma numeric_limit_kept limit dflt z :
  ToNumber StringToNumber limit = Ok (Num z) -> default_to dflt limit = limit.
Proof. destruct limit; try reflexivity. discriminate. Qed.

(** The channel lookups carry no limit at all. *)
Lemma lookup_channels_limits client ids :
  forall channels st,
  exists calls,
    sent (snd (lookup_channels slack_api client ids channels st))
    = (sent st ++ calls)%list
    /\ limits_sent calls = [].
Proof.
  induction ids as [|channelId rest IH]; intros channels st.
  - exists []. split; [simpl; now rewrite app_nil_r | reflexivity].
  - cbn [lookup_channels]. unfold bind at 1. rewrite fetch_json_run.
    set (c := HttpGet _ _ _).
    destruct (fst (slack_api (world st) c)) as [e|data].
    + exists [c]. split; reflexivity.
    + unfold bind, lift. destruct (member data "ok") as [e|ok].
      * exists [c]. split; reflexivity.
      * match goal with
        | |- context [if ?b then _ else _] => destruct b
        end;
          (match goal with
           | |- context [lookup_channels _ _ _ ?chs ?st1] =>
               destruct (IH chs st1) as (calls & Hsent & Hlimits)
           end;
           exists (c :: calls); rewrite Hsent; split;
           [ cbn [after_call sent]; now rewrite <- app_assoc
           | exact Hlimits ]).
Qed.

Ltac listing_calls Hnum Hz :=
  erewrite numeric_limit_kept by exact Hnum; unfold bind, lift, ret; rewrite Hnum;
  repeat match goal with
         | |- context [match ?r with Throw _ => _ | Ok _ => _ end] =>
             destruct r eqn:?
         | |- context [if ?b then _ else _] => destruct b eqn:?
         end;
  rewrite ?fetch_json_run;
  first [ exists []; split; [cbn [snd]; now rewrite app_nil_r | constructor]
        | eexists [_]; split;
          [ reflexivity
          | cbn; rewrite Z.min_r by lia; repeat constructor ] ].

Lemma getChannels_limits client limit z cursor env st :
  ToNumber StringToNumber limit = Ok (Num z) ->
  200 < z ->
  exists calls,
    sent (snd (getChannels slack_api StringToNumber client limit cursor env st))
    = (sent st ++ calls)%list
    /\ Forall (eq "200") (limits_sent calls).
Proof.
  intros Hnum Hz. unfold getChannels.
  destruct (negb (truthy match env with
                         | Some e => env_get e "SLACK_CHANNEL_IDS"
                         | None => VUndef
                         end)).
  - listing_calls Hnum Hz.
  - unfold bind at 1, lift.
    destruct (match _ with VStr s => Ok _ | _ => Throw _ end) as [e|ids].
    + exists []. split; [cbn [snd]; now rewrite app_nil_r | constructor].
    + unfold bind, ret.
      destruct (lookup_channels_limits client ids [] st) as (calls & Hsent & Hlimits).
      exists calls. split.
      * destruct (lookup_channels slack_api client ids [] st) as [[e|channels] st'];
          exact Hsent.
      * rewrite Hlimits. constructor.
Qed.

Lemma getUsers_limits client limit z cursor st :
  ToNumber StringToNumber limit = Ok (Num z) ->
  200 < z ->
  exists calls,
    sent (snd (getUsers slack_api StringToNumber process client limit cursor st))
    = (sent st ++ calls)%list
    /\ Forall (eq "200") (limits_sent calls).
Proof. intros Hnum Hz. unfold getUsers. listing_calls Hnum Hz. Qed.

Lemma snd_then_content (m : M World value) st :
  snd (then_content m st) = snd (m st).
Proof. unfold bind, ret. destruct (m st) as [[e|a] st']; reflexivity. Qed.

Lemma snd_handle client requestBody st :
  snd (Handle client requestBody st)
  = snd (Call client None (canonical_name requestBody)
           (canonical_arguments requestBody) st).
Proof.
  unfold handle_call_tool.
  destruct (Call client None _ _ st) as [[e|a] st']; reflexivity.
Qed.

(** C7. For a [limit] whose numeric value is above 200, a number above
    200 in particular, every limit that [getChannels] or [getUsers]
    sends to the Slack API is 200: this holds of all the calls either
    operation makes, whatever the other arguments, and of all the calls
    a whole request to [slack_list_channels] or [slack_get_users] gives
    rise to. The listing without a cursor that [fetch] dispatches to
    sends exactly one call, with limit 200, and so does the user listing
    when the runtime has a [process]. *)
Theorem limit_above_200_is_clamped client limit z cursor st :
  ToNumber StringToNumber limit = Ok (Num z) ->
  200 < z ->
  (forall env,
      exists calls,
        sent (snd (getChannels slack_api StringToNumber client limit cursor env st))
        = (sent st ++ calls)%list
        /\ Forall (eq "200") (limits_sent calls))
  /\ (exists calls,
        sent (snd (getUsers slack_api StringToNumber process client limit cursor st))
        = (sent st ++ calls)%list
        /\ Forall (eq "200") (limits_sent calls))
  /\ sent (snd (getChannels slack_api StringToNumber client limit VUndef None st))
     = (sent st
        ++ [HttpGet "https://slack.com/api/conversations.list"
              [("types", "public_channel"); ("exclude_archived", "true");
               ("limit", "200"); ("team_id", EmptyString)]
              (botHeaders client)])%list
  /\ (forall penv,
        process = Process penv ->
        exists team,
          sent (snd (getUsers slack_api StringToNumber process client limit
                       VUndef st))
          = (sent st
             ++ [HttpGet "https://slack.com/api/users.list"
                   [("limit", "200"); ("team_id", team)] (botHeaders client)])%list)
  /\ (forall request env requestBody,
        configured env ->
        decoded request = Some requestBody ->
        classify requestBody = Ok CallTool ->
        canonical_name requestBody = VStr "slack_list_channels"
        \/ canonical_name requestBody = VStr "slack_get_users" ->
        get (canonical_arguments requestBody) "limit" = limit ->
        exists calls,
          sent (snd (Fetch request env st)) = (sent st ++ calls)%list
          /\ Forall (eq "200") (limits_sent calls)).
Proof.
  intros Hnum Hz. repeat split.
  - intros env. now apply getChannels_limits with (z := z).
  - now apply getUsers_limits with (z := z).
  - unfold getChannels. erewrite numeric_limit_kept by exact Hnum.
    unfold bind, lift, ret. rewrite Hnum. cbn. rewrite Z.min_r by lia.
    rewrite fetch_json_run. reflexivity.
  - intros penv Hprocess. unfold getUsers. erewrite numeric_limit_kept by exact Hnum.
    unfold bind, lift, ret, process_env. rewrite Hnum, Hprocess. cbn.
    rewrite Z.min_r by lia.
    destruct (ToString (env_get penv "SLACK_TEAM_ID")) as [e|team] eqn:Hteam.
    + unfold env_get in Hteam. destruct (env_lookup _ penv); discriminate.
    + exists team. rewrite fetch_json_run. reflexivity.
  - intros request env requestBody Henv Hbody Hkind Hname Hlimit.
    rewrite (fetch_call_tool _ st Henv Hbody Hkind), snd_handle.
    unfold call_tool. rewrite canonical_arguments_truthy. cbn [negb].
    destruct Hname as [-> | ->]; cbn [is_str String.eqb Ascii.eqb Bool.eqb];
      rewrite snd_then_content, Hlimit.
    + now apply getChannels_limits with (z := z).
    + now apply getUsers_limits with (z := z).
Qed.

(** *** C8: a preflight request *)

(** C8, on the code. A request of transport method OPTIONS goes through
    the decoding and the classification like any other: when its text
    is not JSON, as the empty text of a preflight request is not, the
    answer is the decoding error with status 400, and when its body is
    a tool listing request the answer is the tool list; the preflight
    answer is given only to a decoded body that falls through all four
    tests. *)
Theorem options_is_decoded_first env st :
  configured env ->
  Fetch {| method := "OPTIONS"; decoded := None |} env st
  = (json_response 400 (VObj [("error", VStr "Invalid JSON in request")]), st)
  /\ body (json_response 400 (VObj [("error", VStr "Invalid JSON in request")]))
     = Some (sq "{'error':'Invalid JSON in request'}")
  /\ Fetch {| method := "OPTIONS";
              decoded := Some (VObj [("method", VStr "tools/list")]) |} env st
     = (json_response 200 (list_result (VObj [("method", VStr "tools/list")])), st)
  /\ (forall requestBody,
        classify requestBody = Ok Unsupported ->
        Fetch {| method := "OPTIONS"; decoded := Some requestBody |} env st
        = ({| status := 200; headers := cors_preflight; body := None |}, st)).
Proof.
  intros [Htoken Hteam]. unfold fetch. rewrite Htoken, Hteam. cbn.
  repeat split. intros requestBody Hkind. now rewrite Hkind.
Qed.

(** *** C9: the pre-defined channel list *)

(** A run of the lookups that comes to its end has looked up every id
    in turn and has kept only channels that are not archived. *)
Lemma lookup_channels_ok client ids :
  forall channels st kept st',
    lookup_channels slack_api client ids channels st = (Ok kept, st') ->
    sent st' = (sent st ++ map (channel_lookup client) ids)%list
    /\ (Forall not_archived channels -> Forall not_archived kept).
Proof.
  induction ids as [|channelId rest IH]; intros channels st kept st' Hrun.
  - injection Hrun as <- <-. split; [simpl; now rewrite app_nil_r | easy].
  - cbn [lookup_channels] in Hrun. unfold bind at 1 in Hrun.
    rewrite fetch_json_run in Hrun. fold (channel_lookup client channelId) in Hrun.
    destruct (fst (slack_api (world st) (channel_lookup client channelId)))
      as [e|data]; [discriminate|].
    unfold bind, lift in Hrun.
    destruct (member data "ok") as [e|ok]; [discriminate|].
    destruct (truthy ok && truthy (get data "channel")
              && negb (truthy (get (get data "channel") "is_archived"))) eqn:Hkeep;
      apply IH in Hrun; destruct Hrun as [Hsent Hkept];
      (split; [rewrite Hsent; cbn [after_call sent map]; now rewrite <- app_assoc|]).
    + intros Hall. apply Hkept. apply Forall_app. split; [exact Hall|].
      constructor; [|constructor].
      apply andb_prop in Hkeep. destruct Hkeep as [Hkeep Harchived].
      apply andb_prop in Hkeep. destruct Hkeep as [_ Hchannel].
      split; [exact Hchannel | now apply negb_true_iff].
    + exact Hkept.
Qed.

(** With the list of channel ids in the [env] it is given, [getChannels]
    looks up each id of the list, split at the commas and trimmed, and
    answers with channels that are not archived. *)
Lemma getChannels_predefined client limit cursor env ids st response st' :
  env_get env "SLACK_CHANNEL_IDS" = VStr ids ->
  ids <> EmptyString ->
  getChannels slack_api StringToNumber client limit cursor (Some env) st
  = (Ok response, st') ->
  sent st'
  = (sent st ++ map (channel_lookup client) (map Text.trim (Text.split_comma ids)))%list
  /\ exists kept,
       response = VObj [("ok", VBool true);
                        ("channels", VArr kept);
                        ("response_metadata", VObj [("next_cursor", VStr EmptyString)])]
       /\ Forall not_archived kept.
Proof.
  intros Hids Hnonempty Hrun. unfold getChannels in Hrun. rewrite Hids in Hrun.
  assert (Htruthy : truthy (VStr ids) = true).
  { simpl. destruct ids; [congruence | reflexivity]. }
  rewrite Htruthy in Hrun. cbn [negb] in Hrun. unfold bind, lift, ret in Hrun.
  destruct (lookup_channels slack_api client _ [] st) as [[e|kept] st1] eqn:Hlookup;
    [discriminate|].
  injection Hrun as <- <-.
  destruct (lookup_channels_ok _ _ _ _ Hlookup) as [Hsent Hkept].
  split; [exact Hsent|]. exists kept. split; [reflexivity|]. apply Hkept. constructor.
Qed.

(** The registered handler passes [env] on: with a pre-defined list it
    looks up each id in turn and, the answers being what the workspace
    [Demo] gives, returns the channels that are not archived. *)
Lemma registered_handler_uses_predefined_channels :
  callToolHandler Demo.slack_api Demo.StringToNumber NoProcess Demo.client
    Demo.env_with_channels
    (VObj [("params", VObj [("name", VStr "slack_list_channels");
                            ("arguments", VObj [])])])
    Demo.start
  = (Ok (text_content
           (VObj [("ok", VBool true);
                  ("channels",
                   VArr [VObj [("id", VStr "C1"); ("is_archived", VBool false)];
                         VObj [("id", VStr "C3"); ("is_archived", VBool false)]]);
                  ("response_metadata", VObj [("next_cursor", VStr EmptyString)])])),
     {| world := 3%nat;
        sent := map (fun id => HttpGet "https://slack.com/api/conversations.info"
                                 [("channel", id)] (botHeaders Demo.client))
                  ["C1"; "C2"; "C3"] |}).
Proof. reflexivity. Qed.

(** C9, on the code. The tool call [fetch] dispatches passes no [env] to
    [getChannels], so a configured list of channel ids is not seen: for
    every request to [slack_list_channels] the calls made are none or
    one call of the paginated listing, whatever [SLACK_CHANNEL_IDS] is;
    with the list [C1, C2,C3] configured, a request with empty
    arguments makes the single call [conversations.list] and no channel
    lookup. *)
Theorem fetch_ignores_predefined_channels :
  (forall request env requestBody st,
      configured env ->
      decoded request = Some requestBody ->
      classify requestBody = Ok CallTool ->
      canonical_name requestBody = VStr "slack_list_channels" ->
      sent (snd (Fetch request env st)) = sent st
      \/ exists query,
           sent (snd (Fetch request env st))
           = (sent st
              ++ [HttpGet "https://slack.com/api/conversations.list" query
                    (botHeaders (new_SlackClient (env_get env "SLACK_BOT_TOKEN")))])%list)
  /\ env_get Demo.env_with_channels "SLACK_CHANNEL_IDS" = VStr "C1, C2,C3"
  /\ sent (snd (Demo.run Demo.env_with_channels (Demo.post Demo.list_channels_call)))
     = [HttpGet "https://slack.com/api/conversations.list"
          [("types", "public_channel"); ("exclude_archived", "true");
           ("limit", "100"); ("team_id", EmptyString)]
          (botHeaders Demo.client)].
Proof.
  repeat split.
  intros request env requestBody st Henv Hbody Hkind Hname.
  rewrite (fetch_call_tool _ st Henv Hbody Hkind), snd_handle.
  unfold call_tool. rewrite canonical_arguments_truthy, Hname. cbn [negb is_str].
  cbn [String.eqb Ascii.eqb Bool.eqb]. rewrite snd_then_content.
  unfold getChannels. cbn [truthy negb]. unfold bind, lift, ret.
  repeat match goal with
         | |- context [match ?r with Throw _ => _ | Ok _ => _ end] =>
             destruct r eqn:?
         | |- context [if ?b then _ else _] => destruct b eqn:?
         end;
    rewrite ?fetch_json_run;
    first [ left; reflexivity | right; eexists; reflexivity ].
Qed.

(** *** C10: the two envelopes of a tool call *)

(** C10. For every request that reaches the tool-call branch: when the
    tool call throws, the body sent is the serialisation of an object
    whose only property is [content], so it has neither [jsonrpc] nor
    [id], and it is the same for every other request with the same tool
    name and arguments, whatever its id; when the tool call returns, the
    body is the serialisation of an object with the properties
    [jsonrpc], [id] and [result], the id being the request's, or 0 for a
    request without one. *)
Theorem call_tool_envelopes request env requestBody st :
  configured env ->
  decoded request = Some requestBody ->
  classify requestBody = Ok CallTool ->
  match Dispatch env requestBody st with
  | (Throw message, st') =>
      Fetch request env st = (json_response 200 (error_content message), st')
      /\ keys (error_content message) = ["content"]
      /\ get (error_content message) "jsonrpc" = VUndef
      /\ get (error_content message) "id" = VUndef
      /\ body (json_response 200 (error_content message)) = Some (error_text message)
      /\ (forall request' requestBody',
            decoded request' = Some requestBody' ->
            classify requestBody' = Ok CallTool ->
            canonical_name requestBody' = canonical_name requestBody ->
            canonical_arguments requestBody' = canonical_arguments requestBody ->
            Fetch request' env st = Fetch request env st)
  | (Ok result, st') =>
      Fetch request env st = (json_response 200 (call_result requestBody result), st')
      /\ keys (call_result requestBody result) = ["jsonrpc"; "id"; "result"]
      /\ get (call_result requestBody result) "jsonrpc" = VStr "2.0"
      /\ get (call_result requestBody result) "id"
         = match get requestBody "id" with
           | VUndef => VNum 0
           | id => id
           end
      /\ get (call_result requestBody result) "result" = result
  end.
Proof.
  intros Henv Hbody Hkind.
  pose proof (fetch_call_tool _ st Henv Hbody Hkind) as Hfetch.
  unfold handle_call_tool in Hfetch. unfold dispatch.
  destruct (Call _ None (canonical_name requestBody)
              (canonical_arguments requestBody) st) as [[message|result] st'] eqn:Hrun.
  - repeat split; try assumption; try reflexivity.
    + apply error_content_text.
    + intros request' requestBody' Hbody' Hkind' Hname Hargs.
      rewrite Hfetch, (fetch_call_tool _ st Henv Hbody' Hkind').
      unfold handle_call_tool. rewrite Hname, Hargs, Hrun. reflexivity.
  - repeat split; try assumption; reflexivity.
Qed.

(** ** Further properties of the worker *)

(** *** Which calls a request gives rise to *)

Lemma calls_only_weaken {A} (P Q : api_call -> Prop) (m : M World A) :
  (forall c, P c -> Q c) -> calls_only slack_api P m -> calls_only slack_api Q m.
Proof.
  intros HPQ Hm st. destruct (Hm st) as [Hsame | (c & Hc & HP)].
  - now left.
  - right. exists c. split; [exact Hc | now apply HPQ].
Qed.

Lemma calls_only_throw {A} (P : api_call -> Prop) e :
  calls_only slack_api P (@throw World A e).
Proof. intros st. now left. Qed.

Ltac routed_op op :=
  intros st; unfold op, bind, lift, ret, throw; cbn [truthy negb];
  split_results;
  first [ left; reflexivity
        | match goal with
          | |- context [fetch_json slack_api ?c ?st] =>
              rewrite (fetch_json_run c st); right; exists c;
              split;
              [ destruct (fst (slack_api (world st) c)); reflexivity
              | split; reflexivity ]
          end ].

Local Abbreviation to url client :=
  (fun c => url_of c = url /\ headers_of c = botHeaders client).

Lemma routed_getChannels client limit cursor :
  calls_only slack_api (to "https://slack.com/api/conversations.list" client)
    (then_content (getChannels slack_api StringToNumber client limit cursor None)).
Proof. routed_op @getChannels. Qed.

Lemma routed_postMessage client channel_id text :
  calls_only slack_api (to "https://slack.com/api/chat.postMessage" client)
    (then_content (postMessage slack_api client channel_id text)).
Proof. routed_op @postMessage. Qed.

Lemma routed_postReply client channel_id thread_ts text :
  calls_only slack_api (to "https://slack.com/api/chat.postMessage" client)
    (then_content (postReply slack_api client channel_id thread_ts text)).
Proof. routed_op @postReply. Qed.

Lemma routed_addReaction client channel_id timestamp reaction :
  calls_only slack_api (to "https://slack.com/api/reactions.add" client)
    (then_content (addReaction slack_api client channel_id timestamp reaction)).
Proof. routed_op @addReaction. Qed.

Lemma routed_getChannelHistory client channel_id limit :
  calls_only slack_api (to "https://slack.com/api/conversations.history" client)
    (then_content (getChannelHistory slack_api client channel_id limit)).
Proof. routed_op @getChannelHistory. Qed.

Lemma routed_getThreadReplies client channel_id thread_ts :
  calls_only slack_api (to "https://slack.com/api/conversations.replies" client)
    (then_content (getThreadReplies slack_api client channel_id thread_ts)).
Proof. routed_op @getThreadReplies. Qed.

Lemma routed_getUsers client limit cursor :
  calls_only slack_api (to "https://slack.com/api/users.list" client)
    (then_content (getUsers slack_api StringToNumber process client limit cursor)).
Proof. routed_op @getUsers. Qed.

Lemma routed_getUserProfile client user_id :
  calls_only slack_api (to "https://slack.com/api/users.profile.get" client)
    (then_content (getUserProfile slack_api client user_id)).
Proof. routed_op @getUserProfile. Qed.

Ltac route_case E lemma :=
  apply String.eqb_eq in E; subst;
  first [ apply calls_only_throw
        | eapply calls_only_weaken; [|apply lemma];
          intros c [Hurl Hheaders]; eexists; split; [reflexivity|];
          split; [now rewrite Hurl | exact Hheaders] ].

(** The tool call [fetch] dispatches makes at most one call of the API,
    and that call goes to the URL of the tool named, with the headers of
    the client; a name that is not a string of the [switch] makes no
    call. *)
Lemma call_tool_is_routed client name arguments :
  calls_only slack_api
    (fun c => exists s, name = VStr s /\ endpoint s = Some (url_of c)
                        /\ headers_of c = botHeaders client)
    (Call client None name arguments).
Proof.
  unfold call_tool.
  destruct (negb (truthy arguments)); [apply calls_only_throw|].
  destruct name as [| |b|z|s|l|o];
    try (cbn [is_str]; intros st; left; unfold bind, lift, throw;
         match goal with |- context [ToString ?v] => destruct (ToString v) end;
         reflexivity).
  cbn [is_str].
  destruct (s =? "slack_list_channels")%string eqn:E1;
    [route_case E1 routed_getChannels|].
  destruct (s =? "slack_post_message")%string eqn:E2;
    [destruct (_ || _); route_case E2 routed_postMessage|].
  destruct (s =? "slack_reply_to_thread")%string eqn:E3;
    [destruct (_ || _); route_case E3 routed_postReply|].
  destruct (s =? "slack_add_reaction")%string eqn:E4;
    [destruct (_ || _); route_case E4 routed_addReaction|].
  destruct (s =? "slack_get_channel_history")%string eqn:E5;
    [destruct (negb _); route_case E5 routed_getChannelHistory|].
  destruct (s =? "slack_get_thread_replies")%string eqn:E6;
    [destruct (_ || _); route_case E6 routed_getThreadReplies|].
  destruct (s =? "slack_get_users")%string eqn:E7;
    [route_case E7 routed_getUsers|].
  destruct (s =? "slack_get_user_profile")%string eqn:E8;
    [destruct (negb _); route_case E8 routed_getUserProfile|].
  intros st. left. reflexivity.
Qed.

(** X1. Whatever the request, [fetch] leaves the store alone or makes
    exactly one call of the Slack API. It makes a call only when the
    configuration is there and the body is decoded and reaches the
    tool-call branch; the call then goes to the URL of the tool named
    and carries the bearer token of the environment and the JSON content
    type. *)
Theorem fetch_makes_at_most_one_routed_call request env st :
  snd (Fetch request env st) = st
  \/ (configured env
      /\ exists requestBody c s,
           decoded request = Some requestBody
           /\ classify requestBody = Ok CallTool
           /\ canonical_name requestBody = VStr s
           /\ snd (Fetch request env st) = after_call slack_api st c
           /\ endpoint s = Some (url_of c)
           /\ headers_of c
              = [("Authorization", "Bearer " ++ text_of (env_get env "SLACK_BOT_TOKEN"));
                 ("Content-Type", "application/json")]).
Proof.
  destruct (truthy (env_get env "SLACK_BOT_TOKEN")) eqn:Htoken;
    [|left; unfold fetch; now rewrite Htoken].
  destruct (truthy (env_get env "SLACK_TEAM_ID")) eqn:Hteam;
    [|left; unfold fetch; now rewrite Htoken, Hteam].
  assert (Henv : configured env) by now split.
  destruct (decoded request) as [requestBody|] eqn:Hbody;
    [|left; unfold fetch; now rewrite Htoken, Hteam, Hbody].
  rewrite (fetch_decoded _ st Henv Hbody).
  destruct (classify requestBody) as [e|[]] eqn:Hkind; try now left.
  - rewrite snd_handle.
    destruct (call_tool_is_routed (new_SlackClient (env_get env "SLACK_BOT_TOKEN"))
                (canonical_name requestBody) (canonical_arguments requestBody) st)
      as [Hsame | (c & Hc & s & Hname & Hurl & Hheaders)]; [now left|].
    right. split; [exact Henv|]. exists requestBody, c, s. now repeat split.
  - left. now destruct (method request =? "OPTIONS")%string.
Qed.


(** *** The shape of every response *)

Lemma fetch_response_shape request env st :
  (configured env
   /\ fst (Fetch request env st)
      = {| status := 200; headers := cors_preflight; body := None |})
  \/ exists code props,
       fst (Fetch request env st) = json_response code (VObj props)
       /\ ((code = 500 /\ ~ configured env)
           \/ ((code = 200 \/ code = 400) /\ configured env)).
Proof.
  destruct (truthy (env_get env "SLACK_BOT_TOKEN")) eqn:Htoken.
  2:{ right. unfold fetch. rewrite Htoken. do 2 eexists. split; [reflexivity|].
      left. split; [reflexivity|]. intros [H _]. congruence. }
  destruct (truthy (env_get env "SLACK_TEAM_ID")) eqn:Hteam.
  2:{ right. unfold fetch. rewrite Htoken, Hteam. do 2 eexists.
      split; [reflexivity|]. left. split; [reflexivity|]. intros [_ H]. congruence. }
  assert (Henv : configured env) by now split.
  destruct (decoded request) as [requestBody|] eqn:Hbody.
  2:{ right. unfold fetch. rewrite Htoken, Hteam, Hbody. do 2 eexists.
      split; [reflexivity|]. right. split; [now right | exact Henv]. }
  rewrite (fetch_decoded _ st Henv Hbody).
  destruct (classify requestBody) as [e|[]] eqn:Hkind.
  - right. do 2 eexists. split; [reflexivity|]. right. split; [now right | exact Henv].
  - right. unfold handle_call_tool.
    destruct (Call _ None _ _ st) as [[m|result] st']; do 2 eexists;
      (split; [reflexivity|]); right; (split; [now left | exact Henv]).
  - right. do 2 eexists. split; [reflexivity|]. right. split; [now left | exact Henv].
  - right. do 2 eexists. split; [reflexivity|]. right. split; [now left | exact Henv].
  - right. do 2 eexists. split; [reflexivity|]. right. split; [now left | exact Henv].
  - destruct (method request =? "OPTIONS")%string.
    + left. now split.
    + right. do 2 eexists. split; [reflexivity|]. right.
      split; [now right | exact Henv].
Qed.

(** X2. Every response of [fetch], the error responses included,
    carries the three permissive cross-origin headers; its status is
    200, 400 or 500, and it is 500 exactly when the bot token or the
    team id is missing; a response without body is the preflight
    response, and a response with a body is declared as JSON. *)
Theorem every_response_has_cors_headers request env st :
  header "Access-Control-Allow-Origin" (fst (Fetch request env st)) = Some "*"
  /\ header "Access-Control-Allow-Methods" (fst (Fetch request env st))
     = Some "POST, GET, OPTIONS"
  /\ header "Access-Control-Allow-Headers" (fst (Fetch request env st))
     = Some "Content-Type"
  /\ (status (fst (Fetch request env st)) = 200
      \/ status (fst (Fetch request env st)) = 400
      \/ status (fst (Fetch request env st)) = 500)
  /\ (status (fst (Fetch request env st)) = 500 <-> ~ configured env)
  /\ (body (fst (Fetch request env st)) = None ->
      fst (Fetch request env st)
      = {| status := 200; headers := cors_preflight; body := None |})
  /\ (body (fst (Fetch request env st)) <> None ->
      header "Content-Type" (fst (Fetch request env st)) = Some "application/json").
Proof.
  destruct (fetch_response_shape request env st)
    as [[Henv ->] | (code & props & -> & Hcode)].
  - repeat split; try reflexivity; try (now left).
    + discriminate.
    + intros Hnot. contradiction.
    + intros Hbody. now contradiction Hbody.
  - repeat split; try reflexivity.
    + cbn [status json_response]. intuition.
    + cbn [status json_response]. intros ->.
      destruct Hcode as [[_ Hnot] | [[H | H] _]]; [exact Hnot | discriminate..].
    + cbn [status json_response]. intros Hnot.
      destruct Hcode as [[Hcode _] | [_ Henv]]; [exact Hcode | contradiction].
    + discriminate.
Qed.

(** X3. When the bot token or the team id is unbound, or bound to the
    empty string, every request, whatever its method and its text, is
    answered with status 500 before anything is decoded and without a
    call of the API; the body says which of the three variables are
    there and lists the names of all the bindings of the environment. *)
Theorem missing_configuration_answers_500 request env st :
  env_lookup "SLACK_BOT_TOKEN" env = None
  \/ env_lookup "SLACK_BOT_TOKEN" env = Some EmptyString
  \/ env_lookup "SLACK_TEAM_ID" env = None
  \/ env_lookup "SLACK_TEAM_ID" env = Some EmptyString ->
  Fetch request env st = (json_response 500 (config_error env), st)
  /\ get (get (config_error env) "debug") "envKeys"
     = VArr (map (fun kv => VStr (fst kv)) env)
  /\ get (get (config_error env) "debug") "hasChannelIds"
     = VBool (match env_lookup "SLACK_CHANNEL_IDS" env with
              | Some ids => negb (ids =? EmptyString)%string
              | None => false
              end).
Proof.
  intros Hmissing.
  assert (Hfalsy : negb (truthy (env_get env "SLACK_BOT_TOKEN"))
                   || negb (truthy (env_get env "SLACK_TEAM_ID")) = true).
  { unfold env_get.
    destruct Hmissing as [H | [H | [H | H]]]; rewrite H; cbn;
      rewrite ?orb_true_r; reflexivity. }
  repeat split.
  - unfold fetch. now rewrite Hfalsy.
  - cbn. unfold env_get. now destruct (env_lookup "SLACK_CHANNEL_IDS" env).
Qed.


(** *** Names outside the registry *)

Lemma unlisted_name s lit : ~ In s tool_names -> In lit tool_names -> (s =? lit)%string = false.
Proof.
  intros Hnot Hin. apply String.eqb_neq. intros ->. contradiction.
Qed.

(** X4. A tool call whose name is a string that is not the name of a
    listed tool makes no call of the API and is answered with status 200
    and the failure body of the message [Unknown tool: ] followed by the
    name; a request that names no tool at all has the empty name and is
    answered so too. *)
Theorem unknown_tool_is_reported request env requestBody st s :
  configured env ->
  decoded request = Some requestBody ->
  classify requestBody = Ok CallTool ->
  canonical_name requestBody = VStr s ->
  ~ In s tool_names ->
  Fetch request env st
  = ({| status := 200; headers := cors_json;
        body := Some (error_text ("Unknown tool: " ++ s)) |}, st)
  /\ (truthy (get (get requestBody "params") "name") = false ->
      truthy (get (get requestBody "params") "tool") = false ->
      s = EmptyString).
Proof.
  intros Henv Hbody Hkind Hname Hnot. split.
  - eapply fetch_dispatch_throw; try eassumption.
    unfold dispatch, call_tool. rewrite Hname, canonical_arguments_truthy.
    cbn [negb is_str].
    rewrite !(unlisted_name Hnot) by (cbn; tauto).
    reflexivity.
  - intros Hprimary Hfallback. unfold canonical_name in Hname.
    rewrite or_else_chain, !opt_member_get, Hprimary, Hfallback in Hname.
    congruence.
Qed.

(** *** What the check of the required arguments lets through *)

Ltac falsy_argument Hname Hfalsy :=
  unfold dispatch, call_tool; rewrite Hname, canonical_arguments_truthy;
  cbn [negb is_str String.eqb Ascii.eqb Bool.eqb];
  rewrite Hfalsy; cbn [negb orb];
  rewrite ?orb_true_r; reflexivity.

(** X5. The check of the required arguments is a test of truthiness: a
    required argument that is there but falsy, such as [0], [false] or
    [null], is reported like a missing one, by the message of the tool,
    before any call of the API. *)
Theorem falsy_required_argument_is_missing tool p request env requestBody st :
  configured env ->
  decoded request = Some requestBody ->
  classify requestBody = Ok CallTool ->
  In tool Tools.tools ->
  canonical_name requestBody = Tools.name_of tool ->
  In p (Tools.required_of tool) ->
  truthy (get (canonical_arguments requestBody) p) = false ->
  exists message,
    Dispatch env requestBody st = (Throw message, st)
    /\ Text.includes message "Missing required argument" = true
    /\ Text.includes message p = true
    /\ Fetch request env st
       = ({| status := 200; headers := cors_json;
             body := Some (error_text message) |}, st).
Proof.
  intros Henv Hbody Hkind Htool Hname Hp Hfalsy.
  assert (Hrun : exists message,
             Dispatch env requestBody st = (Throw message, st)
             /\ Text.includes message "Missing required argument" = true
             /\ Text.includes message p = true).
  { unfold Tools.tools in Htool. simpl in Htool.
    repeat (destruct Htool as [<- | Htool]); try contradiction;
      cbn in Hname; cbn in Hp;
      repeat (destruct Hp as [<- | Hp]); try contradiction;
      eexists; (split; [falsy_argument Hname Hfalsy | split; reflexivity]). }
  destruct Hrun as (message & Hrun & Hmissing & Hnames).
  exists message. repeat split; try assumption.
  eapply fetch_dispatch_throw; eassumption.
Qed.

(** The response to a tool call that comes down to one call of the API. *)
Lemma fetch_single_call request env requestBody st c :
  configured env ->
  decoded request = Some requestBody ->
  classify requestBody = Ok CallTool ->
  Dispatch env requestBody st = then_content (fetch_json slack_api c) st ->
  Fetch request env st
  = (json_response 200
       match fst (slack_api (world st) c) with
       | Throw e => error_content e
       | Ok data => call_result requestBody (text_content data)
       end,
     after_call slack_api st c).
Proof.
  intros Henv Hbody Hkind Hrun.
  rewrite (fetch_call_tool _ st Henv Hbody Hkind).
  unfold handle_call_tool. unfold dispatch in Hrun. rewrite Hrun.
  unfold bind, ret. rewrite fetch_json_run.
  destruct (fst (slack_api (world st) c)); reflexivity.
Qed.

(** X6. Once their required arguments are truthy, the three posting
    tools make exactly one POST each, whose body is the JSON text of the
    arguments as they came, of whatever type, under the keys of the
    Slack API ([channel], [text], [thread_ts], [timestamp], [name]);
    the answer of the API is wrapped as the result and its failure as
    the failure body. *)
Theorem posting_tools_send_arguments_as_given request env requestBody st :
  configured env ->
  decoded request = Some requestBody ->
  classify requestBody = Ok CallTool ->
  let args := canonical_arguments requestBody in
  let client := new_SlackClient (env_get env "SLACK_BOT_TOKEN") in
  let answer c :=
    (json_response 200
       match fst (slack_api (world st) c) with
       | Throw e => error_content e
       | Ok data => call_result requestBody (text_content data)
       end,
     after_call slack_api st c) in
  (canonical_name requestBody = VStr "slack_post_message" ->
   truthy (get args "channel_id") = true ->
   truthy (get args "text") = true ->
   Fetch request env st
   = answer (HttpPost "https://slack.com/api/chat.postMessage" (botHeaders client)
               (JSON_stringify (VObj [("channel", get args "channel_id");
                                      ("text", get args "text")]))))
  /\ (canonical_name requestBody = VStr "slack_reply_to_thread" ->
      truthy (get args "channel_id") = true ->
      truthy (get args "thread_ts") = true ->
      truthy (get args "text") = true ->
      Fetch request env st
      = answer (HttpPost "https://slack.com/api/chat.postMessage" (botHeaders client)
                  (JSON_stringify (VObj [("channel", get args "channel_id");
                                         ("thread_ts", get args "thread_ts");
                                         ("text", get args "text")]))))
  /\ (canonical_name requestBody = VStr "slack_add_reaction" ->
      truthy (get args "channel_id") = true ->
      truthy (get args "timestamp") = true ->
      truthy (get args "reaction") = true ->
      Fetch request env st
      = answer (HttpPost "https://slack.com/api/reactions.add" (botHeaders client)
                  (JSON_stringify (VObj [("channel", get args "channel_id");
                                         ("timestamp", get args "timestamp");
                                         ("name", get args "reaction")])))).
Proof.
  intros Henv Hbody Hkind args client answer.
  repeat split.
  - intros Hname H1 H2. unfold answer. eapply fetch_single_call; try eassumption.
    unfold dispatch, call_tool. rewrite Hname, canonical_arguments_truthy.
    fold args. now rewrite H1, H2.
  - intros Hname H1 H2 H3. unfold answer. eapply fetch_single_call; try eassumption.
    unfold dispatch, call_tool. rewrite Hname, canonical_arguments_truthy.
    fold args. now rewrite H1, H2, H3.
  - intros Hname H1 H2 H3. unfold answer. eapply fetch_single_call; try eassumption.
    unfold dispatch, call_tool. rewrite Hname, canonical_arguments_truthy.
    fold args. now rewrite H1, H2, H3.
Qed.

(** X7. Whatever the API answers is a result: when the call a tool call
    made was answered, the response is the envelope with the request's
    id around the JSON text of the answer, also when the answer is an
    error of the application such as [{ok: false, ...}]. *)
Theorem api_answer_is_returned_as_result request env requestBody st c data :
  configured env ->
  decoded request = Some requestBody ->
  classify requestBody = Ok CallTool ->
  sent (snd (Fetch request env st)) = (sent st ++ [c])%list ->
  fst (slack_api (world st) c) = Ok data ->
  fst (Fetch request env st)
  = json_response 200 (call_result requestBody (text_content data))
  /\ get (get (call_result requestBody (text_content data)) "result") "content"
     = VArr [VObj [("type", VStr "text"); ("text", stringify data)]].
Proof.
  intros Henv Hbody Hkind Hsent Hanswer. split; [|reflexivity].
  rewrite (fetch_call_tool _ st Henv Hbody Hkind) in *.
  rewrite snd_handle in Hsent. unfold handle_call_tool.
  destruct (call_tool_single_round_trip
              (new_SlackClient (env_get env "SLACK_BOT_TOKEN"))
              (canonical_name requestBody) (canonical_arguments requestBody) st)
    as [[e Hrun] | [c' Hrun]]; rewrite Hrun in *; cbn [snd fst] in *.
  - exfalso. apply (f_equal (@length _)) in Hsent.
    rewrite length_app in Hsent. simpl in Hsent. lia.
  - cbn [after_call sent] in Hsent. apply app_inv_head in Hsent.
    injection Hsent as ->. now rewrite Hanswer.
Qed.


(** *** The queries of the listing and history tools *)

Lemma fetch_single_call_answer request env requestBody st c :
  configured env ->
  decoded request = Some requestBody ->
  classify requestBody = Ok CallTool ->
  Dispatch env requestBody st = then_content (fetch_json slack_api c) st ->
  Fetch request env st = call_answer slack_api requestBody st c.
Proof. apply fetch_single_call. Qed.

(** X8. The channel listing that [fetch] dispatches to sends one GET of
    [conversations.list] whose query has, in this order, the types, the
    exclusion of archived channels, the limit, an empty team id and,
    last, the cursor when there is one. The limit is the smaller of the
    given number and 200, and 100 when none is given; the team id is
    empty whatever the environment holds; an empty cursor is left out. *)
Theorem channel_listing_query request env requestBody st z :
  configured env ->
  decoded request = Some requestBody ->
  classify requestBody = Ok CallTool ->
  canonical_name requestBody = VStr "slack_list_channels" ->
  get (canonical_arguments requestBody) "limit" = VNum z
  \/ (get (canonical_arguments requestBody) "limit" = VUndef /\ z = 100) ->
  truthy (get (canonical_arguments requestBody) "cursor") = false
  \/ (exists c, get (canonical_arguments requestBody) "cursor" = VStr c) ->
  Fetch request env st
  = call_answer slack_api requestBody st
      (HttpGet "https://slack.com/api/conversations.list"
         ([("types", "public_channel"); ("exclude_archived", "true");
           ("limit", Z_toString (Z.min z 200)); ("team_id", EmptyString)]
          ++ cursor_entry (get (canonical_arguments requestBody) "cursor"))
         (botHeaders (new_SlackClient (env_get env "SLACK_BOT_TOKEN")))).
Proof.
  intros Henv Hbody Hkind Hname Hlimit Hcursor.
  eapply fetch_single_call_answer; try eassumption.
  unfold dispatch, call_tool. rewrite Hname, canonical_arguments_truthy.
  cbn [negb is_str String.eqb Ascii.eqb Bool.eqb].
  unfold getChannels. cbn [truthy negb].
  assert (Hnum : ToNumber StringToNumber
                   (default_to (VNum 100) (get (canonical_arguments requestBody) "limit"))
                 = Ok (Num z)).
  { destruct Hlimit as [-> | [-> ->]]; reflexivity. }
  unfold bind, lift, ret. rewrite Hnum. cbn [ToString or_else truthy].
  destruct Hcursor as [Hfalsy | [c Hc]].
  - rewrite Hfalsy.
    assert (Hentry : cursor_entry (get (canonical_arguments requestBody) "cursor") = []).
    { destruct (get (canonical_arguments requestBody) "cursor") as [| |b|n|c|l|o];
        try reflexivity; try discriminate.
      simpl in Hfalsy. destruct c; [reflexivity | discriminate]. }
    rewrite Hentry. reflexivity.
  - rewrite Hc. destruct c; reflexivity.
Qed.


(** X10. The user listing takes its team id from the global [process],
    not from the environment [fetch] checked. In a runtime without
    [process] it fails with [process is not defined] before anything is
    sent; with one, it sends one GET of [users.list] with the limit (the
    smaller of the given number and 200, 100 by default), the team id of
    [process.env], the text [undefined] when that has none, and the
    cursor when there is one. *)
Theorem user_listing_reads_process_env request env requestBody st z :
  configured env ->
  decoded request = Some requestBody ->
  classify requestBody = Ok CallTool ->
  canonical_name requestBody = VStr "slack_get_users" ->
  get (canonical_arguments requestBody) "limit" = VNum z
  \/ (get (canonical_arguments requestBody) "limit" = VUndef /\ z = 100) ->
  truthy (get (canonical_arguments requestBody) "cursor") = false
  \/ (exists c, get (canonical_arguments requestBody) "cursor" = VStr c) ->
  (process = NoProcess ->
   Fetch request env st
   = ({| status := 200; headers := cors_json;
         body := Some (error_text "process is not defined") |}, st))
  /\ (forall penv,
        process = Process penv ->
        Fetch request env st
        = call_answer slack_api requestBody st
            (HttpGet "https://slack.com/api/users.list"
               ([("limit", Z_toString (Z.min z 200));
                 ("team_id", match env_lookup "SLACK_TEAM_ID" penv with
                             | Some team => team
                             | None => "undefined"
                             end)]
                ++ cursor_entry (get (canonical_arguments requestBody) "cursor"))
               (botHeaders (new_SlackClient (env_get env "SLACK_BOT_TOKEN"))))).
Proof.
  intros Henv Hbody Hkind Hname Hlimit Hcursor.
  assert (Hnum : ToNumber StringToNumber
                   (default_to (VNum 100) (get (canonical_arguments requestBody) "limit"))
                 = Ok (Num z)).
  { destruct Hlimit as [-> | [-> ->]]; reflexivity. }
  split.
  - intros Hprocess. eapply fetch_dispatch_throw; try eassumption.
    unfold dispatch, call_tool. rewrite Hname, canonical_arguments_truthy.
    cbn [negb is_str String.eqb Ascii.eqb Bool.eqb].
    unfold getUsers, bind, lift, ret, process_env. rewrite Hnum, Hprocess.
    reflexivity.
  - intros penv Hprocess. eapply fetch_single_call_answer; try eassumption.
    unfold dispatch, call_tool. rewrite Hname, canonical_arguments_truthy.
    cbn [negb is_str String.eqb Ascii.eqb Bool.eqb].
    unfold getUsers, bind, lift, ret, process_env. rewrite Hnum, Hprocess.
    unfold env_get.
    destruct (env_lookup "SLACK_TEAM_ID" penv) as [team|]; cbn [ToString];
      (destruct Hcursor as [Hfalsy | [c Hc]];
       [ rewrite Hfalsy;
         assert (Hentry : cursor_entry (get (canonical_arguments requestBody) "cursor")
                          = [])
           by (destruct (get (canonical_arguments requestBody) "cursor")
                 as [| |b|n|c|l|o];
               try reflexivity; try discriminate;
               simpl in Hfalsy; destruct c; [reflexivity | discriminate]);
         rewrite Hentry; reflexivity
       | rewrite Hc; destruct c; reflexivity ]).
Qed.


(** *** The registry and the switch *)

Lemma grown_store_differs (st : state World) c : after_call slack_api st c <> st.
Proof.
  intros Heq. apply (f_equal (@sent World)) in Heq. cbn [after_call sent] in Heq.
  apply (f_equal (@length _)) in Heq. rewrite length_app in Heq. simpl in Heq. lia.
Qed.

(** The one error a string conversion can throw. *)
(** Induction on a value that reaches into arrays and objects. *)
Lemma value_nested_ind (P : value -> Prop) :
  P VUndef -> P VNull -> (forall b, P (VBool b)) -> (forall z, P (VNum z)) ->
  (forall s, P (VStr s)) ->
  (forall elems, Forall P elems -> P (VArr elems)) ->
  (forall props, Forall (fun kv => P (snd kv)) props -> P (VObj props)) ->
  forall v, P v.
Proof.
  intros Hundef Hnull Hbool Hnum Hstr Harr Hobj.
  refine (fix on_value (v : value) : P v :=
            match v with
            | VUndef => Hundef
            | VNull => Hnull
            | VBool b => Hbool b
            | VNum z => Hnum z
            | VStr s => Hstr s
            | VArr elems =>
                Harr elems
                  ((fix on_elems (l : list value) : Forall P l :=
                      match l with
                      | [] => Forall_nil _
                      | x :: rest => Forall_cons x (on_value x) (on_elems rest)
                      end) elems)
            | VObj props =>
                Hobj props
                  ((fix on_props (l : list (string * value))
                      : Forall (fun kv => P (snd kv)) l :=
                      match l with
                      | [] => Forall_nil _
                      | kv :: rest =>
                          Forall_cons kv (on_value (snd kv)) (on_props rest)
                      end) props)
            end).
Qed.

Lemma ToString_throws v : forall e, ToString v = Throw e -> e = not_primitive.
Proof.
  induction v as [| |b|z|s|elems IH|props _] using value_nested_ind;
    intros e; cbn [ToString]; try discriminate.
  - destruct b; discriminate.
  - intros H. unfold rbind at 1 in H.
    match type of H with
    | match ?r with Throw _ => _ | Ok _ => _ end = _ =>
        destruct r as [e1|items] eqn:Hgo
    end; [|discriminate].
    injection H as <-. clear - IH Hgo. revert e1 Hgo.
    induction IH as [|x rest Hx _ IHrest]; intros e1 Hgo; [discriminate|].
    unfold rbind at 1 in Hgo.
    destruct (match x with
              | VUndef | VNull => Ok EmptyString
              | _ => ToString x
              end) as [e2|shown] eqn:Hshown.
    + injection Hgo as <-. apply Hx. destruct x; try discriminate; exact Hshown.
    + unfold rbind at 1 in Hgo.
      match type of Hgo with
      | match ?r with Throw _ => _ | Ok _ => _ end = _ =>
          destruct r as [e2|more] eqn:Hrest
      end; [|discriminate].
      injection Hgo as <-. exact (IHrest _ eq_refl).
  - destruct (has_own "toString" props); [|discriminate].
    intros H. now injection H as <-.
Qed.

Lemma ToNumber_throws v e :
  ToNumber StringToNumber v = Throw e -> e = not_primitive.
Proof.
  destruct v as [| |b|z|s|l|o]; cbn [ToNumber]; try discriminate.
  - destruct b; discriminate.
  - unfold rbind. destruct (ToString (VArr l)) eqn:H; [|discriminate].
    intros Heq. injection Heq as <-. exact (ToString_throws _ H).
  - unfold rbind. destruct (ToString (VObj o)) eqn:H; [|discriminate].
    intros Heq. injection Heq as <-. exact (ToString_throws _ H).
Qed.

Lemma call_toString_throws name v e :
  call_toString name v = Throw e ->
  e = not_primitive \/ e = undefined_read "toString" \/ e = null_read "toString"
  \/ e = (name ++ ".toString is not a function")%string.
Proof.
  destruct v as [| |b|z|s|l|o]; cbn [call_toString].
  - intros H. injection H as <-. tauto.
  - intros H. injection H as <-. tauto.
  - intros H. left. exact (ToString_throws _ H).
  - intros H. left. exact (ToString_throws _ H).
  - intros H. left. exact (ToString_throws _ H).
  - intros H. left. exact (ToString_throws _ H).
  - destruct (has_own "toString" o); [|discriminate].
    intros H. injection H as <-. tauto.
Qed.

Ltac settle_leaf Hrun :=
  rewrite ?fetch_json_run in Hrun;
  first
    [ discriminate Hrun
    | match type of Hrun with
      | context [fst (slack_api ?w ?c)] =>
          destruct (fst (slack_api w c)); injection Hrun; intros;
          match goal with
          | H : after_call _ _ _ = _ |- _ => exact (grown_store_differs H)
          end
      end
    | injection Hrun; intros;
      repeat match goal with
             | H : ToString _ = Throw _ |- _ => apply ToString_throws in H; subst
             | H : ToNumber _ _ = Throw _ |- _ => apply ToNumber_throws in H; subst
             | H : call_toString _ _ = Throw _ |- _ =>
                 apply call_toString_throws in H;
                 destruct H as [H | [H | [H | H]]]; subst
             | H : process_env _ _ = Throw _ |- _ =>
                 unfold process_env in H; destruct process; [|discriminate H];
                 injection H; intros; subst
             end;
      discriminate ].

Ltac never_unknown op :=
  unfold op, bind, lift, ret, throw; cbn [truthy negb];
  intros Hrun;
  repeat match type of Hrun with
         | context [match ?r with Throw _ => _ | Ok _ => _ end] =>
             lazymatch r with
             | fst (slack_api _ _) => fail
             | _ => destruct r eqn:?
             end
         | context [if ?b then _ else _] => destruct b eqn:?
         end;
  settle_leaf Hrun.

(** X11. The registry and the switch name the same tools. A tool call
    under the name of a listed tool is never answered as an unknown
    tool, whatever its arguments; a tool call under any other string is
    always answered so, provided it has arguments. *)
Theorem registry_matches_switch s client arguments st :
  (In s tool_names ->
   Call client None (VStr s) arguments st <> (Throw ("Unknown tool: " ++ s), st))
  /\ (~ In s tool_names ->
      truthy arguments = true ->
      Call client None (VStr s) arguments st = (Throw ("Unknown tool: " ++ s), st)).
Proof.
  split.
  - intros Hin. unfold tool_names in Hin. simpl in Hin.
    unfold call_tool.
    destruct (negb (truthy arguments)); [discriminate|].
    repeat (destruct Hin as [<- | Hin]); try contradiction;
      cbn [is_str String.eqb Ascii.eqb Bool.eqb].
    + never_unknown @getChannels.
    + destruct (_ || _); [discriminate|]. never_unknown @postMessage.
    + destruct (_ || _); [discriminate|]. never_unknown @postReply.
    + destruct (_ || _); [discriminate|]. never_unknown @addReaction.
    + destruct (negb _); [discriminate|]. never_unknown @getChannelHistory.
    + destruct (_ || _); [discriminate|]. never_unknown @getThreadReplies.
    + never_unknown @getUsers.
    + destruct (negb _); [discriminate|]. never_unknown @getUserProfile.
  - intros Hnot Htruthy. unfold call_tool. rewrite Htruthy. cbn [negb is_str].
    rewrite !(unlisted_name Hnot) by (cbn; tauto).
    reflexivity.
Qed.


(** *** The check for arguments *)


(** *** The answers that call nothing *)

(** X13. A tool listing request is answered with the eight descriptors
    in the order of their declaration, the same list the registered
    handler returns, under the request's id when that is truthy and
    under 0 otherwise, so that the ids [0], [null], the empty string and
    [false] all come back as 0, where the envelope of a tool call keeps
    every id but a missing one. A notification is answered with the text
    [{"jsonrpc":"2.0","result":null}] whatever it carries, an id
    included. Neither touches the store. *)
Theorem listing_and_notification_answers request env requestBody st :
  configured env ->
  decoded request = Some requestBody ->
  (classify requestBody = Ok ListTools ->
   Fetch request env st = (json_response 200 (list_result requestBody), st)
   /\ get (list_result requestBody) "id"
      = (if truthy (get requestBody "id") then get requestBody "id" else VNum 0)
   /\ @listToolsHandler World st = (Ok (get (list_result requestBody) "result"), st)
   /\ get (get (list_result requestBody) "result") "tools" = VArr Tools.tools
   /\ (forall result,
         get requestBody "id" <> VUndef ->
         get (call_result requestBody result) "id" = get requestBody "id"))
  /\ (classify requestBody = Ok Notification ->
      Fetch request env st
      = ({| status := 200; headers := cors_json;
            body := Some (sq "{'jsonrpc':'2.0','result':null}") |}, st)).
Proof.
  intros Henv Hbody. split; intros Hkind;
    rewrite (fetch_decoded _ st Henv Hbody), Hkind.
  - repeat split.
    intros result Hid. unfold call_result. cbn.
    destruct (get requestBody "id"); congruence.
  - reflexivity.
Qed.

(** *** The pre-defined channels *)

(** X14. When the environment holds a list of channel ids, a channel
    listing through the registered handler, whatever its limit and
    cursor, either comes back as the error content of a lookup that
    failed, or has looked up every id of the list, split at the commas
    and trimmed, one after the other, and comes back as the text content
    of [{ok: true, channels, response_metadata}] with an empty next
    cursor and no archived channel among the channels. *)
Theorem registered_handler_looks_up_predefined_channels
    client env ids request st content st' :
  env_get env "SLACK_CHANNEL_IDS" = VStr ids ->
  ids <> EmptyString ->
  get (get request "params") "name" = VStr "slack_list_channels" ->
  truthy (get (get request "params") "arguments") = true ->
  callToolHandler slack_api StringToNumber process client env request st
  = (Ok content, st') ->
  (exists e, content = error_content e)
  \/ (sent st'
      = (sent st
         ++ map (channel_lookup client) (map Text.trim (Text.split_comma ids)))%list
      /\ exists kept,
           content
           = text_content
               (VObj [("ok", VBool true);
                      ("channels", VArr kept);
                      ("response_metadata", VObj [("next_cursor", VStr EmptyString)])])
           /\ Forall not_archived kept).
Proof.
  intros Hids Hnonempty Hname Harguments Hrun.
  unfold callToolHandler, try_catch, call_tool in Hrun.
  rewrite Hname, Harguments in Hrun.
  cbn [negb is_str String.eqb Ascii.eqb Bool.eqb] in Hrun.
  unfold bind at 1 in Hrun.
  destruct (getChannels slack_api StringToNumber client _ _ (Some env) st)
    as [[e|response] st1] eqn:Hlisting.
  - left. exists e. unfold ret in Hrun. now injection Hrun as <- _.
  - right. unfold ret in Hrun. injection Hrun as <- <-.
    destruct (@getChannels_predefined client _ _ env ids st response st1
                Hids Hnonempty Hlisting)
      as [Hsent (kept & -> & Hkept)].
    split; [exact Hsent|]. now exists kept.
Qed.



(** *** The reading tools *)

(** X16. The thread and profile tools turn their arguments into text
    before they send them: when the conversions succeed, one GET goes
    out with the texts in its query (and [include_labels] set for a
    profile); when an argument has no conversion to a string, the tool
    call fails with the TypeError of the conversion and nothing is
    sent. *)
Theorem reading_tools_convert_their_arguments request env requestBody st :
  configured env ->
  decoded request = Some requestBody ->
  classify requestBody = Ok CallTool ->
  let args := canonical_arguments requestBody in
  let client := new_SlackClient (env_get env "SLACK_BOT_TOKEN") in
  (canonical_name requestBody = VStr "slack_get_thread_replies" ->
   truthy (get args "channel_id") = true ->
   truthy (get args "thread_ts") = true ->
   (forall channel ts,
       ToString (get args "channel_id") = Ok channel ->
       ToString (get args "thread_ts") = Ok ts ->
       Fetch request env st
       = call_answer slack_api requestBody st
           (HttpGet "https://slack.com/api/conversations.replies"
              [("channel", channel); ("ts", ts)] (botHeaders client)))
   /\ ((exists e, ToString (get args "channel_id") = Throw e)
       \/ (exists e, ToString (get args "thread_ts") = Throw e) ->
       Fetch request env st
       = ({| status := 200; headers := cors_json;
             body := Some (error_text not_primitive) |}, st)))
  /\ (canonical_name requestBody = VStr "slack_get_user_profile" ->
      truthy (get args "user_id") = true ->
      (forall user,
          ToString (get args "user_id") = Ok user ->
          Fetch request env st
          = call_answer slack_api requestBody st
              (HttpGet "https://slack.com/api/users.profile.get"
                 [("user", user); ("include_labels", "true")] (botHeaders client)))
      /\ (forall e,
            ToString (get args "user_id") = Throw e ->
            Fetch request env st
            = ({| status := 200; headers := cors_json;
                  body := Some (error_text not_primitive) |}, st))).
Proof.
  intros Henv Hbody Hkind args client. split.
  - intros Hname H1 H2.
    assert (Hrun : Dispatch env requestBody st
                   = then_content (getThreadReplies slack_api client
                                     (get args "channel_id") (get args "thread_ts")) st).
    { unfold dispatch, call_tool. rewrite Hname, canonical_arguments_truthy.
      fold args. now rewrite H1, H2. }
    split.
    + intros channel ts Hchannel Hts.
      eapply fetch_single_call_answer; try eassumption.
      rewrite Hrun. unfold getThreadReplies, bind, lift. now rewrite Hchannel, Hts.
    + intros Hthrows. eapply fetch_dispatch_throw; try eassumption.
      rewrite Hrun. unfold getThreadReplies, bind, lift, ret.
      destruct (ToString (get args "channel_id")) as [e1|channel] eqn:Hchannel.
      * now rewrite (ToString_throws _ Hchannel).
      * destruct Hthrows as [[e He] | [e He]]; [discriminate|].
        rewrite He. now rewrite (ToString_throws _ He).
  - intros Hname H1.
    assert (Hrun : Dispatch env requestBody st
                   = then_content (getUserProfile slack_api client
                                     (get args "user_id")) st).
    { unfold dispatch, call_tool. rewrite Hname, canonical_arguments_truthy.
      fold args. now rewrite H1. }
    split.
    + intros user Huser. eapply fetch_single_call_answer; try eassumption.
      rewrite Hrun. unfold getUserProfile, bind, lift. now rewrite Huser.
    + intros e He. eapply fetch_dispatch_throw; try eassumption.
      rewrite Hrun. unfold getUserProfile, bind, lift, ret.
      rewrite He. now rewrite (ToString_throws _ He).
Qed.

(** *** Bodies that cannot be classified *)

(** X17. A decoded body that is [null], or whose [method] is truthy
    without being a string, is answered with status 400 and the error
    [Invalid request format], whatever else it holds, a [type] of
    [call_tool] included, and nothing is called: computing the four
    flags throws and the outer handler catches it. Every other decoded
    body is one on which the flags can be computed. *)
Theorem unclassifiable_body_is_bad_request request env requestBody st :
  configured env ->
  decoded request = Some requestBody ->
  requestBody <> VUndef ->
  (requestBody = VNull
   \/ (truthy (get requestBody "method") = true
       /\ forall s, get requestBody "method" <> VStr s) ->
   Fetch request env st
   = ({| status := 400; headers := cors_json;
         body := Some (sq "{'error':'Invalid request format'}") |}, st))
  /\ (classifiable requestBody
      \/ requestBody = VNull
      \/ (truthy (get requestBody "method") = true
          /\ forall s, get requestBody "method" <> VStr s)).
Proof.
  intros Henv Hbody Hdefined. split.
  - intros Hbad. rewrite (fetch_decoded _ st Henv Hbody).
    assert (Hthrows : exists e, classify requestBody = Throw e).
    { destruct Hbad as [-> | [Htruthy Hnot]]; [now eexists|].
      unfold classify.
      destruct (member requestBody "type") as [e|type]; [now eexists|].
      cbn [rbind]. rewrite Htruthy.
      destruct (get requestBody "method") as [| |b|z|s|l|o];
        try (now eexists); now contradiction (Hnot s). }
    destruct Hthrows as [e ->]. reflexivity.
  - assert (Hplain : forall v, v <> VNull -> v <> VUndef -> get v "method" = VUndef ->
                              classifiable v).
    { intros v Hnull Hundef Hmethod. repeat split; try assumption.
      rewrite ?Hmethod. discriminate. }
    destruct requestBody as [| |b|z|s|l|o];
      try (left; apply Hplain; [discriminate | discriminate | reflexivity]).
    + now contradiction Hdefined.
    + right. now left.
    + destruct (get (VObj o) "method") as [| |b|z|s|l|p] eqn:Hmethod.
      * left. now apply Hplain.
      * left. repeat split; try discriminate. rewrite ?Hmethod. discriminate.
      * destruct b.
        -- right. right. rewrite ?Hmethod. split; [reflexivity | discriminate].
        -- left. repeat split; try discriminate. rewrite ?Hmethod. discriminate.
      * destruct (z =? 0) eqn:Hz.
        -- left. repeat split; try discriminate. rewrite ?Hmethod. simpl.
           rewrite Hz. discriminate.
        -- right. right. rewrite ?Hmethod. simpl. rewrite Hz.
           split; [reflexivity | discriminate].
      * left. repeat split; try discriminate. rewrite ?Hmethod. intros _. now exists s.
      * right. right. rewrite ?Hmethod. split; [reflexivity | discriminate].
      * right. right. rewrite ?Hmethod. split; [reflexivity | discriminate].
Qed.


End Properties.

(** ** The properties at work on the workspace [Demo] *)

(** C1 at a message post whose API call fails in the network: the
    failure comes back as the failure body with the network's message. *)
Lemma call_tool_failure_is_caught_witness :
  body (fst (Demo.run Demo.env (Demo.post Demo.post_message_call)))
  = Some (sq "{'content':[{'type':'text','text':'{\'error\':\'fetch failed\'}'}]}").
Proof.
  exact (proj2 (proj2 (proj2 (proj2
           (@call_tool_failure_is_caught nat Demo.slack_api Demo.StringToNumber
              NoProcess (Demo.post Demo.post_message_call) Demo.env
              Demo.post_message_call Demo.start
              (conj eq_refl eq_refl) eq_refl eq_refl))))
           Demo.post_message_sent "fetch failed" eq_refl eq_refl).
Defined.

(** C2 at a notification. *)
Lemma classification_follows_priority_order_witness :
  classify (VObj [("method", VStr "notifications/initialized")]) = Ok Notification.
Proof.
  refine (proj1 (@classification_follows_priority_order nat Demo.slack_api
                   Demo.StringToNumber NoProcess
                   (VObj [("method", VStr "notifications/initialized")]) _)).
  repeat split; try discriminate.
  intros _. eexists. reflexivity.
Defined.

(** C2 as stated fails twice. Under the transport method OPTIONS the
    empty object, which the priority order leaves unsupported, is
    answered with status 200 and no body; and a body of [type]
    [call_tool] whose [method] is the number 5, a tool call by the
    priority order, is answered with status 400 because testing its
    [method] for the notification prefix throws. *)
Lemma classification_counterexample :
  (spec_kind (VObj []) = Unsupported
   /\ status (fst (Demo.run Demo.env (Demo.options (Some (VObj []))))) = 200
   /\ body (fst (Demo.run Demo.env (Demo.options (Some (VObj []))))) = None)
  /\ (spec_kind Demo.numeric_method = CallTool
      /\ classify Demo.numeric_method
         = Throw "requestBody.method.startsWith is not a function"
      /\ Demo.run Demo.env (Demo.post Demo.numeric_method)
         = (json_response 400 (VObj [("error", VStr "Invalid request format")]),
            Demo.start)).
Proof. repeat split. Qed.

(** C3 as stated fails on a request whose [params.arguments] is the
    empty object and whose [params.parameters] is filled in: the primary
    field is present and empty, so the rule of the specification picks
    the fallback, while the code keeps the empty [arguments] and reports
    the required arguments missing. *)
Lemma fallback_counterexample :
  present_nonempty (get (get Demo.both_argument_fields "params") "arguments") = false
  /\ spec_pick (get (get Demo.both_argument_fields "params") "arguments")
       (get (get Demo.both_argument_fields "params") "parameters")
     = VObj [("channel_id", VStr "C1"); ("text", VStr "hello")]
  /\ canonical_arguments Demo.both_argument_fields = VObj []
  /\ canonical_arguments Demo.both_argument_fields
     <> spec_pick (get (get Demo.both_argument_fields "params") "arguments")
          (get (get Demo.both_argument_fields "params") "parameters")
  /\ Demo.run Demo.env (Demo.post Demo.both_argument_fields)
     = (json_response 200
          (error_content "Missing required arguments: channel_id and text"),
        Demo.start).
Proof. repeat split. discriminate. Qed.

(** C5 at a reply that lacks its [thread_ts]. *)
Lemma missing_required_argument_is_reported_witness :
  exists message,
    dispatch Demo.slack_api Demo.StringToNumber NoProcess Demo.env
      Demo.reply_without_thread Demo.start
    = (Throw message, Demo.start)
    /\ Text.includes message "thread_ts" = true
    /\ Demo.run Demo.env (Demo.post Demo.reply_without_thread)
       = ({| status := 200; headers := cors_json;
             body := Some (error_text message) |}, Demo.start).
Proof.
  refine (proj1 (@missing_required_argument_is_reported nat Demo.slack_api
                   Demo.StringToNumber NoProcess)
            Tools.replyToThreadTool "thread_ts" (Demo.post Demo.reply_without_thread)
            Demo.env Demo.reply_without_thread Demo.start
            (conj eq_refl eq_refl) eq_refl eq_refl _ eq_refl _ (or_introl eq_refl)).
  - right. right. left. reflexivity.
  - right. left. reflexivity.
Defined.

(** C6 at three initialize requests: without id, with id 0 and with id
    [null]. *)
Lemma initialize_echoes_id_witness :
  body (fst (Demo.run Demo.env (Demo.post (VObj [("method", VStr "initialize")]))))
  = Some (sq "{'jsonrpc':'2.0','result':{'protocolVersion':'2024-11-05','serverInfo':{'name':'slack-mcp-remote','version':'1.0.0'},'capabilities':{'tools':{}}}}")
  /\ body (fst (Demo.run Demo.env
                  (Demo.post (VObj [("method", VStr "initialize"); ("id", VNum 0)]))))
     = Some (sq "{'jsonrpc':'2.0','id':0,'result':{'protocolVersion':'2024-11-05','serverInfo':{'name':'slack-mcp-remote','version':'1.0.0'},'capabilities':{'tools':{}}}}")
  /\ body (fst (Demo.run Demo.env
                  (Demo.post (VObj [("method", VStr "initialize"); ("id", VNull)]))))
     = Some (sq "{'jsonrpc':'2.0','id':null,'result':{'protocolVersion':'2024-11-05','serverInfo':{'name':'slack-mcp-remote','version':'1.0.0'},'capabilities':{'tools':{}}}}").
Proof.
  pose (at_body := fun requestBody =>
          @initialize_echoes_id nat Demo.slack_api Demo.StringToNumber NoProcess
            (Demo.post requestBody) Demo.env requestBody Demo.start
            (conj eq_refl eq_refl) eq_refl).
  split; [|split].
  - exact (proj1 (proj2 (proj2 (proj2
             (at_body (VObj [("method", VStr "initialize")]) eq_refl)))) eq_refl).
  - exact (proj1 (proj2 (proj2 (proj2 (proj2
             (at_body (VObj [("method", VStr "initialize"); ("id", VNum 0)])
                eq_refl))))) eq_refl).
  - exact (proj1 (proj2 (proj2 (proj2 (proj2 (proj2
             (at_body (VObj [("method", VStr "initialize"); ("id", VNull)])
                eq_refl)))))) eq_refl).
Defined.

(** C7 at a limit of 500. *)
Lemma limit_above_200_is_clamped_witness :
  sent (snd (getChannels Demo.slack_api Demo.StringToNumber Demo.client (VNum 500)
               VUndef None Demo.start))
  = [HttpGet "https://slack.com/api/conversations.list"
       [("types", "public_channel"); ("exclude_archived", "true");
        ("limit", "200"); ("team_id", EmptyString)]
       (botHeaders Demo.client)].
Proof.
  exact (proj1 (proj2 (proj2
           (@limit_above_200_is_clamped nat Demo.slack_api Demo.StringToNumber
              NoProcess Demo.client (VNum 500) 500 VUndef Demo.start
              eq_refl eq_refl)))).
Defined.

(** C8 at a preflight request, which has no body. *)
Lemma options_is_decoded_first_witness :
  Demo.run Demo.env (Demo.options None)
  = ({| status := 400; headers := cors_json;
        body := Some (sq "{'error':'Invalid JSON in request'}") |}, Demo.start).
Proof.
  exact (proj1 (@options_is_decoded_first nat Demo.slack_api Demo.StringToNumber
                  NoProcess Demo.env Demo.start (conj eq_refl eq_refl))).
Defined.

(** C10 at a message post whose API call fails, where the body has the
    single property [content], and at a channel listing that succeeds,
    where the body is the envelope with the request's id. *)
Lemma call_tool_envelopes_witness :
  (Demo.run Demo.env (Demo.post Demo.post_message_call)
   = (json_response 200 (error_content "fetch failed"),
      {| world := 1%nat; sent := [Demo.post_message_sent] |})
   /\ keys (error_content "fetch failed") = ["content"])
  /\ body (fst (Demo.run Demo.env (Demo.post Demo.list_channels_call)))
     = Some (sq "{'jsonrpc':'2.0','id':1,'result':{'content':[{'type':'text','text':'{\'ok\':true}'}]}}").
Proof.
  pose (at_body := fun requestBody =>
          @call_tool_envelopes nat Demo.slack_api Demo.StringToNumber NoProcess
            (Demo.post requestBody) Demo.env requestBody Demo.start
            (conj eq_refl eq_refl) eq_refl).
  pose proof (at_body Demo.post_message_call eq_refl) as Hfailure.
  pose proof (at_body Demo.list_channels_call eq_refl) as Hsuccess.
  split.
  - exact (conj (proj1 Hfailure) (proj1 (proj2 Hfailure))).
  - exact (f_equal (fun r => body (fst r)) (proj1 Hsuccess)).
Defined.

(** ** The further properties at work *)

(** X3 at an environment without bot token and a request that has no
    body. *)
Lemma missing_configuration_answers_500_witness :
  Demo.run Cases.env_without_token (Demo.options None)
  = ({| status := 500; headers := cors_json;
        body := Some (sq "{'error':'Missing required environment variables: SLACK_BOT_TOKEN and SLACK_TEAM_ID','debug':{'hasToken':false,'hasTeamId':true,'hasChannelIds':false,'envKeys':['SLACK_TEAM_ID']}}") |},
     Demo.start).
Proof.
  exact (proj1 (@missing_configuration_answers_500 nat Demo.slack_api
                  Demo.StringToNumber NoProcess (Demo.options None)
                  Cases.env_without_token Demo.start (or_introl eq_refl))).
Defined.

(** X4 at a tool that is not listed. *)
Lemma unknown_tool_is_reported_witness :
  Demo.run Demo.env (Demo.post Cases.bogus_tool_call)
  = ({| status := 200; headers := cors_json;
        body := Some (sq "{'content':[{'type':'text','text':'{\'error\':\'Unknown tool: slack_bogus_tool\'}'}]}") |},
     Demo.start).
Proof.
  refine (proj1 (@unknown_tool_is_reported nat Demo.slack_api Demo.StringToNumber
                   NoProcess (Demo.post Cases.bogus_tool_call) Demo.env
                   Cases.bogus_tool_call Demo.start "slack_bogus_tool"
                   (conj eq_refl eq_refl) eq_refl eq_refl eq_refl _)).
  cbn. intuition discriminate.
Defined.

(** X5 at a message post whose channel id is 0. *)
Lemma falsy_required_argument_is_missing_witness :
  exists message,
    dispatch Demo.slack_api Demo.StringToNumber NoProcess Demo.env
      Cases.zero_channel_call Demo.start
    = (Throw message, Demo.start)
    /\ Text.includes message "Missing required argument" = true
    /\ Text.includes message "channel_id" = true
    /\ Demo.run Demo.env (Demo.post Cases.zero_channel_call)
       = ({| status := 200; headers := cors_json;
             body := Some (error_text message) |}, Demo.start).
Proof.
  refine (@falsy_required_argument_is_missing nat Demo.slack_api
            Demo.StringToNumber NoProcess Tools.postMessageTool "channel_id"
            (Demo.post Cases.zero_channel_call) Demo.env Cases.zero_channel_call
            Demo.start (conj eq_refl eq_refl) eq_refl eq_refl _ eq_refl _ eq_refl).
  - right. left. reflexivity.
  - left. reflexivity.
Defined.

(** X6 at a reaction: one POST with the three arguments, which the
    workspace fails. *)
Lemma posting_tools_send_arguments_as_given_witness :
  Demo.run Demo.env (Demo.post Cases.reaction_call)
  = (json_response 200 (error_content "fetch failed"),
     {| world := 1%nat; sent := [Cases.reaction_sent] |}).
Proof.
  exact (proj2 (proj2
           (@posting_tools_send_arguments_as_given nat Demo.slack_api
              Demo.StringToNumber NoProcess (Demo.post Cases.reaction_call) Demo.env
              Cases.reaction_call Demo.start (conj eq_refl eq_refl) eq_refl eq_refl))
           eq_refl eq_refl eq_refl eq_refl).
Defined.

(** X7 at a message post that Slack answers with an error of its own. *)
Lemma api_answer_is_returned_as_result_witness :
  body (fst (Outage.run Demo.env (Demo.post Demo.post_message_call)))
  = Some (sq "{'jsonrpc':'2.0','id':7,'result':{'content':[{'type':'text','text':'{\'ok\':false,\'error\':\'channel_not_found\'}'}]}}").
Proof.
  exact (f_equal body
           (proj1 (@api_answer_is_returned_as_result nat Outage.slack_api
                     Demo.StringToNumber NoProcess (Demo.post Demo.post_message_call)
                     Demo.env Demo.post_message_call Demo.start
                     Demo.post_message_sent
                     (VObj [("ok", VBool false); ("error", VStr "channel_not_found")])
                     (conj eq_refl eq_refl) eq_refl eq_refl eq_refl eq_refl))).
Defined.

(** X8 at a listing with a limit of 50 and a cursor. *)
Lemma channel_listing_query_witness :
  sent (snd (Demo.run Demo.env (Demo.post Cases.listing_with_cursor)))
  = [HttpGet "https://slack.com/api/conversations.list"
       [("types", "public_channel"); ("exclude_archived", "true");
        ("limit", "50"); ("team_id", EmptyString); ("cursor", "dXNlcjpVMDYx")]
       (botHeaders Demo.client)].
Proof.
  exact (f_equal (fun r => sent (snd r))
           (@channel_listing_query nat Demo.slack_api Demo.StringToNumber NoProcess
              (Demo.post Cases.listing_with_cursor) Demo.env
              Cases.listing_with_cursor Demo.start 50
              (conj eq_refl eq_refl) eq_refl eq_refl eq_refl (or_introl eq_refl)
              (or_intror (ex_intro _ "dXNlcjpVMDYx" eq_refl)))).
Defined.


(** X10 at a user listing, in a runtime without [process] and in one
    whose [process.env] has the team id [T9]. *)
Lemma user_listing_reads_process_env_witness :
  Demo.run Demo.env (Demo.post Cases.users_call)
  = ({| status := 200; headers := cors_json;
        body := Some (sq "{'content':[{'type':'text','text':'{\'error\':\'process is not defined\'}'}]}") |},
     Demo.start)
  /\ sent (snd (fetch Demo.slack_api Demo.StringToNumber (Process Cases.process_env)
                  (Demo.post Cases.users_call) Demo.env Demo.start))
     = [HttpGet "https://slack.com/api/users.list"
          [("limit", "100"); ("team_id", "T9")] (botHeaders Demo.client)].
Proof.
  pose (at_process := fun process =>
          @user_listing_reads_process_env nat Demo.slack_api Demo.StringToNumber
            process (Demo.post Cases.users_call) Demo.env Cases.users_call
            Demo.start 100 (conj eq_refl eq_refl) eq_refl eq_refl eq_refl
            (or_intror (conj eq_refl eq_refl)) (or_introl eq_refl)).
  split.
  - exact (proj1 (at_process NoProcess) eq_refl).
  - exact (f_equal (fun r => sent (snd r))
             (proj2 (at_process (Process Cases.process_env)) _ eq_refl)).
Defined.


(** X13 at a tool listing request of id [null] and at a notification
    that carries an id. *)
Lemma listing_and_notification_answers_witness :
  get (list_result Cases.list_tools_null_id) "id" = VNum 0
  /\ Demo.run Demo.env (Demo.post Cases.notification_with_id)
     = ({| status := 200; headers := cors_json;
           body := Some (sq "{'jsonrpc':'2.0','result':null}") |}, Demo.start).
Proof.
  pose (at_body := fun requestBody =>
          @listing_and_notification_answers nat Demo.slack_api Demo.StringToNumber
            NoProcess (Demo.post requestBody) Demo.env requestBody Demo.start
            (conj eq_refl eq_refl) eq_refl).
  split.
  - exact (proj1 (proj2 (proj1 (at_body Cases.list_tools_null_id) eq_refl))).
  - exact (proj2 (at_body Cases.notification_with_id) eq_refl).
Defined.

(** X16 at a thread request whose [thread_ts] is a number, and at a
    profile request whose [user_id] cannot be converted. *)
Lemma reading_tools_convert_their_arguments_witness :
  sent (snd (Demo.run Demo.env (Demo.post Cases.replies_call)))
  = [HttpGet "https://slack.com/api/conversations.replies"
       [("channel", "C1"); ("ts", "1700000000")] (botHeaders Demo.client)]
  /\ Demo.run Demo.env (Demo.post Cases.profile_call)
     = ({| status := 200; headers := cors_json;
           body := Some (sq "{'content':[{'type':'text','text':'{\'error\':\'Cannot convert object to primitive value\'}'}]}") |},
        Demo.start).
Proof.
  pose (at_body := fun requestBody =>
          @reading_tools_convert_their_arguments nat Demo.slack_api
            Demo.StringToNumber NoProcess (Demo.post requestBody) Demo.env
            requestBody Demo.start (conj eq_refl eq_refl) eq_refl).
  split.
  - exact (f_equal (fun r => sent (snd r))
             (proj1 (proj1 (at_body Cases.replies_call eq_refl) eq_refl eq_refl eq_refl)
                "C1" "1700000000" eq_refl eq_refl)).
  - exact (proj2 (proj2 (at_body Cases.profile_call eq_refl) eq_refl eq_refl)
             not_primitive eq_refl).
Defined.

(** X17 at the body [null] and at a legacy tool call whose [method] is
    a number. *)
Lemma unclassifiable_body_is_bad_request_witness :
  Demo.run Demo.env (Demo.post VNull)
  = ({| status := 400; headers := cors_json;
        body := Some (sq "{'error':'Invalid request format'}") |}, Demo.start)
  /\ Demo.run Demo.env (Demo.post Demo.numeric_method)
     = ({| status := 400; headers := cors_json;
           body := Some (sq "{'error':'Invalid request format'}") |}, Demo.start).
Proof.
  assert (Hnull : VNull <> VUndef) by discriminate.
  assert (Hobject : Demo.numeric_method <> VUndef) by discriminate.
  assert (Hnumber : forall s, get Demo.numeric_method "method" <> VStr s)
    by discriminate.
  split.
  - exact (proj1 (@unclassifiable_body_is_bad_request nat Demo.slack_api
                    Demo.StringToNumber NoProcess (Demo.post VNull) Demo.env VNull
                    Demo.start (conj eq_refl eq_refl) eq_refl Hnull)
             (or_introl eq_refl)).
  - exact (proj1 (@unclassifiable_body_is_bad_request nat Demo.slack_api
                    Demo.StringToNumber NoProcess (Demo.post Demo.numeric_method)
                    Demo.env Demo.numeric_method Demo.start (conj eq_refl eq_refl)
                    eq_refl Hobject)
             (or_intror (conj eq_refl Hnumber))).
Defined.

(** X14 at the channel list [C1, C2,C3] of the workspace [Demo], where
    [C2] is archived. *)
Lemma registered_handler_looks_up_predefined_channels_witness :
  (exists e,
      text_content
        (VObj [("ok", VBool true);
               ("channels",
                VArr [VObj [("id", VStr "C1"); ("is_archived", VBool false)];
                      VObj [("id", VStr "C3"); ("is_archived", VBool false)]]);
               ("response_metadata", VObj [("next_cursor", VStr EmptyString)])])
      = error_content e)
  \/ (map (channel_lookup Demo.client) ["C1"; "C2"; "C3"]
      = map (channel_lookup Demo.client) ["C1"; "C2"; "C3"]
      /\ exists kept,
           text_content
             (VObj [("ok", VBool true);
                    ("channels",
                     VArr [VObj [("id", VStr "C1"); ("is_archived", VBool false)];
                           VObj [("id", VStr "C3"); ("is_archived", VBool false)]]);
                    ("response_metadata", VObj [("next_cursor", VStr EmptyString)])])
           = text_content
               (VObj [("ok", VBool true);
                      ("channels", VArr kept);
                      ("response_metadata", VObj [("next_cursor", VStr EmptyString)])])
           /\ Forall not_archived kept).
Proof.
  assert (Hnonempty : "C1, C2,C3" <> EmptyString) by discriminate.
  exact (@registered_handler_looks_up_predefined_channels nat Demo.slack_api
           Demo.StringToNumber NoProcess Demo.client Demo.env_with_channels
           "C1, C2,C3"
           (VObj [("params", VObj [("name", VStr "slack_list_channels");
                                   ("arguments", VObj [("limit", VNum 5)])])])
           Demo.start _ _ eq_refl Hnonempty eq_refl eq_refl eq_refl).
Defined.
